(** * Device tracer (paddle/fluid/platform/device_tracer.cc)

    A shallow embedding of the CUPTI-backed device tracer and of its inert
    stand-in, followed by the properties of the join performed by
    [GenProfile], of the enable/disable life cycle and of the launch
    callback. *)

From Stdlib Require Import ZArith List String Sorted Lia.
From stdpp Require Import base option list gmap strings.

Local Open Scope Z_scope.

(** ** Machine integers

    [uint32_t] and [uint64_t] values are integers of [Z]; a conversion to
    the type (argument passing, unsigned arithmetic) is the reduction
    modulo the width, and the conversion to [int] is the two's complement
    reading of the low 32 bits. *)

Definition u32 (z : Z) : Z := z mod 2 ^ 32.
Definition u64 (z : Z) : Z := z mod 2 ^ 64.
Definition to_int (z : Z) : Z := (z + 2 ^ 31) mod 2 ^ 32 - 2 ^ 31.

(** ** The external source (CUPTI) as seen by the tracer *)

Inductive CUptiResult :=
| CUPTI_SUCCESS
| CUPTI_ERROR_MAX_LIMIT_REACHED
| CUPTI_ERROR_OTHER (code : nat).

Inductive CUpti_ActivityKind :=
| CUPTI_ACTIVITY_KIND_MEMCPY
| CUPTI_ACTIVITY_KIND_KERNEL
| CUPTI_ACTIVITY_KIND_DEVICE
| CUPTI_ACTIVITY_KIND_MEMSET
| CUPTI_ACTIVITY_KIND_OVERHEAD
| CUPTI_ACTIVITY_KIND_CONTEXT
| CUPTI_ACTIVITY_KIND_DRIVER
| CUPTI_ACTIVITY_KIND_RUNTIME
| CUPTI_ACTIVITY_KIND_NAME
| CUPTI_ACTIVITY_KIND_MARKER
| CUPTI_ACTIVITY_KIND_CONCURRENT_KERNEL.

(** The entry points of the source that the tracer calls. *)
Inductive CuptiCall :=
| cuptiActivityEnable (k : CUpti_ActivityKind)
| cuptiActivityDisable (k : CUpti_ActivityKind)
| cuptiActivityRegisterCallbacks
| cuptiSubscribe
| cuptiEnableCallback
| cuptiGetTimestamp
| cuptiActivityFlushAll
| cuptiUnsubscribe
| cuptiFinalize
| cuptiActivityGetNextRecord
| cuptiActivityGetNumDroppedRecords.

(** What is written to [stderr].  The fixed texts are constructors; the
    formatted ones keep their arguments. *)
Inductive LogMsg :=
| MsgAlreadyEnabled          (* "DeviceTracer already enabled\n" *)
| MsgSubscriberLimit         (* "CUPTI subcriber limit reached.\n" *)
| MsgSubscriberFailed        (* "Failed to create CUPTI subscriber.\n" *)
| MsgCannotRelate            (* "cannot relate a kernel activity\n" *)
| MsgKernelTotal (name : string) (total : Z) (count : nat)
    (* "%s: total: %fms invoked cuda kernels: %lu\n"; [total] is the sum in
       nanoseconds that the code divides by 1000000.0 for printing *)
| MsgDropped (n : Z)         (* "Dropped %u activity records\n" *)
| MsgCallFailed (c : CuptiCall) (st : CUptiResult).
    (* "%s:%d: error: function %s failed with error %s.\n" *)

(** Observable effects of a method call, in program order. *)
Inductive Effect :=
| Stderr (m : LogMsg)
| Cupti (c : CuptiCall)
| Vlog1.   (* VLOG(1) << "Unhandled API Callback for " ... *)

(** The lines written with [fprintf(stderr, ...)]; the message of
    [VLOG(1)] goes where the logging library sends it and is kept apart. *)
Definition is_stderr (e : Effect) : bool :=
  match e with Stderr _ => true | _ => false end.

Definition is_cupti (e : Effect) : bool :=
  match e with Cupti _ => true | _ => false end.

(** ** A monad for method bodies

    A method runs on the object's state, appends to the effect log, and
    either returns or leaves by [exit(-1)] or by an exception.  After the
    exception of [PADDLE_ENFORCE] the object is still there, as the method
    left it, and the outcome keeps it. *)

Inductive Abort :=
| ProcessExit (code : Z)     (* exit(code), from CUPTI_CALL *)
| EnforceNotMet              (* thrown by PADDLE_ENFORCE *)
| OutOfRange                 (* std::out_of_range, thrown by at() *)
| NullString.                (* std::string built from a null pointer *)

Inductive Outcome (S A : Type) :=
| Done (a : A) (s : S)
| Aborted (e : Abort)
| Thrown (e : Abort) (s : S).
Arguments Done {S A} a s.
Arguments Aborted {S A} e.
Arguments Thrown {S A} e s.

Definition M (S A : Type) : Type := S -> Outcome S A * list Effect.

Definition ret {S A} (a : A) : M S A := fun s => (Done a s, []).

Definition bind {S A B} (m : M S A) (k : A -> M S B) : M S B :=
  fun s =>
    match m s with
    | (Done a s', l1) => let '(o, l2) := k a s' in (o, l1 ++ l2)
    | (Aborted e, l1) => (Aborted e, l1)
    | (Thrown e s', l1) => (Thrown e s', l1)
    end.

Definition get {S} : M S S := fun s => (Done s s, []).
Definition emit {S} (e : Effect) : M S unit := fun s => (Done tt s, [e]).
Definition abort {S A} (e : Abort) : M S A := fun _ => (Aborted e, []).
Definition throw {S A} (e : Abort) : M S A := fun s => (Thrown e s, []).

Declare Scope tracer_scope.
Delimit Scope tracer_scope with tracer.
Notation "'let*' x ':=' c 'in' k" := (bind c (fun x => k))
  (at level 10, x pattern, c at level 100, k at level 200) : tracer_scope.
Notation "c1 ';;' c2" := (bind c1 (fun _ => c2))
  (at level 100, c2 at level 200, right associativity) : tracer_scope.
Local Open Scope tracer_scope.

(** [for (const T &x : xs) body] over a container that the body does not
    change. *)
Fixpoint for_each {S T} (xs : list T) (body : T -> M S unit) : M S unit :=
  match xs with
  | [] => ret tt
  | x :: xs' => body x ;; for_each xs' body
  end.

(** The same loop with the loop-carried locals passed along. *)
Fixpoint for_fold {S T L} (xs : list T) (body : L -> T -> M S L) (acc : L)
  : M S L :=
  match xs with
  | [] => ret acc
  | x :: xs' => let* acc' := body acc x in for_fold xs' body acc'
  end.

Definition fprintf_stderr {S} (m : LogMsg) : M S unit := emit (Stderr m).

(** ** Data model *)

(** Modelled from the spec: [KernelRecord] is declared in device_tracer.h,
    which is not part of the sources; a record has two timestamps, a device,
    a stream and a correlation id.  These are the fields that
    [AddKernelRecords] initialises, in this order, and that [GenProfile]
    reads. *)
Record KernelRecord := {
  kr_start_ns : Z;         (* uint64_t *)
  kr_end_ns : Z;           (* uint64_t *)
  kr_device_id : Z;        (* uint32_t *)
  kr_stream_id : Z;        (* uint32_t *)
  kr_correlation_id : Z    (* uint32_t *)
}.

(** Modelled from the spec: the messages [proto::Event] and
    [proto::Profile] are generated from a .proto file that is not part of
    the sources; an event carries a name, two timestamps, a device and a
    stream, a profile the session's timestamps and the ordered events.  A
    message that was just constructed has empty and zero fields. *)
Record Event := {
  name : string;
  start_ns : Z;
  end_ns : Z;
  device_id : Z;
  stream_id : Z
}.

Record Profile := {
  events : list Event;
  profile_start_ns : Z;
  profile_end_ns : Z
}.

Definition Profile_new : Profile :=
  {| events := []; profile_start_ns := 0; profile_end_ns := 0 |}.

Definition set_start_ns (v : Z) (p : Profile) : Profile :=
  {| events := events p; profile_start_ns := v;
     profile_end_ns := profile_end_ns p |}.

Definition set_end_ns (v : Z) (p : Profile) : Profile :=
  {| events := events p; profile_start_ns := profile_start_ns p;
     profile_end_ns := v |}.

(** [add_events()] followed by the five setters of the new element. *)
Definition add_events (e : Event) (p : Profile) : Profile :=
  {| events := events p ++ [e]; profile_start_ns := profile_start_ns p;
     profile_end_ns := profile_end_ns p |}.

(** ** [std::map<std::string, std::vector<uint64_t>>]

    The keys are kept in increasing order, which is the order in which the
    summary loop of [GenProfile] visits them. *)

Definition EventTimes := list (string * list Z).

Fixpoint et_find (k : string) (et : EventTimes) : option (list Z) :=
  match et with
  | [] => None
  | (k', v) :: et' => if String.eqb k k' then Some v else et_find k et'
  end.

(** [et[k].push_back(d)] when [k] is a key. *)
Fixpoint et_append (k : string) (d : Z) (et : EventTimes) : EventTimes :=
  match et with
  | [] => []
  | (k', v) :: et' =>
      if String.eqb k k' then (k', v ++ [d]) :: et'
      else (k', v) :: et_append k d et'
  end.

(** Insertion of a new key at its place in the order. *)
Fixpoint et_insert (k : string) (v : list Z) (et : EventTimes) : EventTimes :=
  match et with
  | [] => [(k, v)]
  | (k', v') :: et' =>
      if String.ltb k k' then (k, v) :: (k', v') :: et'
      else (k', v') :: et_insert k v et'
  end.

(** [et[k].push_back(d)]: [operator[]] creates an empty vector for a key
    that is not there yet. *)
Definition et_push (k : string) (d : Z) (et : EventTimes) : EventTimes :=
  match et_find k et with
  | Some _ => et_append k d et
  | None => et_insert k [d] et
  end.

(** [std::accumulate(v.begin(), v.end(), 0)]: the initial value is an
    [int], so every partial sum is converted back to [int]. *)
Definition accumulate_int (v : list Z) : Z :=
  fold_left (fun acc d => to_int (u64 (u64 acc + d))) v 0.

(** ** Answers of the external source

    What the source answers during one call of a tracer method: a status
    for each entry point, the clock, the subscriber handle it hands out and
    the buffers it completes when it is flushed. *)

Record CUpti_ActivityKernel3 := {
  kind : CUpti_ActivityKind;
  start : Z;           (* uint64_t *)
  end_ : Z;            (* uint64_t *)
  deviceId : Z;        (* uint32_t *)
  streamId : Z;        (* uint32_t *)
  correlationId : Z    (* uint32_t *)
}.

Record ActivityBuffer := {
  validSize : Z;
  records : list CUpti_ActivityKernel3;
  (* the status of cuptiActivityGetNextRecord once the records are
     consumed: [None] for CUPTI_ERROR_MAX_LIMIT_REACHED, [Some c] for
     another failure *)
  read_error : option nat;
  dropped : Z
}.

Record CuptiEnv := {
  status : CuptiCall -> CUptiResult;
  timestamp : Z;
  subscriber : Z;
  flushed : list ActivityBuffer
}.

(** [CUPTI_CALL] applied to a status that is already known. *)
Definition CUPTI_CHECK {S} (c : CuptiCall) (st : CUptiResult) : M S unit :=
  match st with
  | CUPTI_SUCCESS => ret tt
  | _ => fprintf_stderr (MsgCallFailed c st) ;; abort (ProcessExit (-1))
  end.

Definition CUPTI_CALL {S} (env : CuptiEnv) (c : CuptiCall) : M S unit :=
  emit (Cupti c) ;; CUPTI_CHECK c (status env c).

(** [PADDLE_ENFORCE] is a macro of enforce.h, which is not among the
    sources.  What its use shows is that it either lets the caller go on or
    throws; [passes] tells for which statuses it lets the caller go on, and
    every property of [Disable] is stated for an arbitrary [passes]. *)
Definition PADDLE_ENFORCE {S} (passes : CUptiResult -> bool)
    (st : CUptiResult) : M S unit :=
  if passes st then ret tt else throw EnforceNotMet.

(** The macro as a test of the truth value of its argument: the status is
    an enumerator and [CUPTI_SUCCESS] is 0, so that the statuses that pass
    are the failures. *)
Definition truth_value (st : CUptiResult) : bool :=
  match st with
  | CUPTI_SUCCESS => false
  | _ => true
  end.


Definition EnableActivity {S} (env : CuptiEnv) : M S unit :=
  CUPTI_CALL env (cuptiActivityEnable CUPTI_ACTIVITY_KIND_MEMCPY) ;;
  CUPTI_CALL env (cuptiActivityEnable CUPTI_ACTIVITY_KIND_KERNEL) ;;
  CUPTI_CALL env (cuptiActivityEnable CUPTI_ACTIVITY_KIND_DEVICE) ;;
  CUPTI_CALL env (cuptiActivityEnable CUPTI_ACTIVITY_KIND_MEMSET) ;;
  CUPTI_CALL env (cuptiActivityEnable CUPTI_ACTIVITY_KIND_OVERHEAD).

Definition DisableActivity {S} (env : CuptiEnv) : M S unit :=
  CUPTI_CALL env (cuptiActivityDisable CUPTI_ACTIVITY_KIND_MEMCPY) ;;
  CUPTI_CALL env (cuptiActivityDisable CUPTI_ACTIVITY_KIND_KERNEL) ;;
  CUPTI_CALL env (cuptiActivityDisable CUPTI_ACTIVITY_KIND_DEVICE) ;;
  CUPTI_CALL env (cuptiActivityDisable CUPTI_ACTIVITY_KIND_CONTEXT) ;;
  CUPTI_CALL env (cuptiActivityDisable CUPTI_ACTIVITY_KIND_DRIVER) ;;
  CUPTI_CALL env (cuptiActivityDisable CUPTI_ACTIVITY_KIND_RUNTIME) ;;
  CUPTI_CALL env (cuptiActivityDisable CUPTI_ACTIVITY_KIND_MEMSET) ;;
  CUPTI_CALL env (cuptiActivityDisable CUPTI_ACTIVITY_KIND_NAME) ;;
  CUPTI_CALL env (cuptiActivityDisable CUPTI_ACTIVITY_KIND_MARKER) ;;
  CUPTI_CALL env (cuptiActivityDisable CUPTI_ACTIVITY_KIND_OVERHEAD).

(** ** The launch callback's view of its arguments *)

Inductive CUpti_CallbackDomain :=
| CUPTI_CB_DOMAIN_DRIVER_API
| CUPTI_CB_DOMAIN_OTHER (d : nat).

Inductive CUpti_CallbackId :=
| CUPTI_DRIVER_TRACE_CBID_cuLaunchKernel
| CUPTI_CBID_OTHER (c : nat).

Inductive CUpti_ApiCallbackSite := CUPTI_API_ENTER | CUPTI_API_EXIT.

(** A [const char *] is the text it points to, or [None] when null. *)
Record CUpti_CallbackData := {
  callbackSite : CUpti_ApiCallbackSite;
  symbolName : option string;
  cb_correlationId : Z    (* uint32_t *)
}.

(** ** Thread-local annotation

    [thread_local const char *cur_annotation]: one slot per thread, a
    thread without a binding holds the null pointer. *)

Definition SetCurAnnotation (thread : nat) (anno : option string)
    (cur_annotation : gmap nat string) : gmap nat string :=
  match anno with
  | Some a => <[thread := a]> cur_annotation
  | None => delete thread cur_annotation
  end.

Definition ClearCurAnnotation (thread : nat)
    (cur_annotation : gmap nat string) : gmap nat string :=
  delete thread cur_annotation.

(** ** The interface [DeviceTracer]

    The virtual methods that both tracers override. *)

Class DeviceTracer (T : Type) := {
  AddAnnotation : Z -> string -> M T unit;
  AddKernelRecords : Z -> Z -> Z -> Z -> Z -> M T unit;
  IsEnabled : M T bool;
  Enable : CuptiEnv -> M T unit;
  GenProfile : M T Profile;
  Disable : CuptiEnv -> M T unit
}.

(** ** [class DeviceTracerImpl] (built with CUPTI) *)

Record DeviceTracerImpl := {
  enabled_ : bool;
  start_ns_ : Z;                       (* uint64_t *)
  end_ns_ : Z;                         (* uint64_t *)
  kernel_records_ : list KernelRecord; (* std::vector<KernelRecord> *)
  correlations_ : gmap Z string;       (* std::unordered_map<uint32_t, std::string> *)
  subscriber_ : Z                      (* CUpti_SubscriberHandle *)
}.

Module Impl.

(** The constructor initialises [enabled_] only; the two timestamps and
    the handle start with whatever the memory holds. *)
Definition new (start0 end0 subscriber0 : Z) : DeviceTracerImpl :=
  {| enabled_ := false; start_ns_ := start0; end_ns_ := end0;
     kernel_records_ := []; correlations_ := ∅;
     subscriber_ := subscriber0 |}.

Definition set_enabled_ (b : bool) : M DeviceTracerImpl unit :=
  fun this =>
    (Done tt {| enabled_ := b; start_ns_ := start_ns_ this;
                end_ns_ := end_ns_ this;
                kernel_records_ := kernel_records_ this;
                correlations_ := correlations_ this;
                subscriber_ := subscriber_ this |}, []).

Definition set_start_ns_ (v : Z) : M DeviceTracerImpl unit :=
  fun this =>
    (Done tt {| enabled_ := enabled_ this; start_ns_ := v;
                end_ns_ := end_ns_ this;
                kernel_records_ := kernel_records_ this;
                correlations_ := correlations_ this;
                subscriber_ := subscriber_ this |}, []).

Definition set_end_ns_ (v : Z) : M DeviceTracerImpl unit :=
  fun this =>
    (Done tt {| enabled_ := enabled_ this; start_ns_ := start_ns_ this;
                end_ns_ := v;
                kernel_records_ := kernel_records_ this;
                correlations_ := correlations_ this;
                subscriber_ := subscriber_ this |}, []).

Definition set_kernel_records_ (v : list KernelRecord)
  : M DeviceTracerImpl unit :=
  fun this =>
    (Done tt {| enabled_ := enabled_ this; start_ns_ := start_ns_ this;
                end_ns_ := end_ns_ this;
                kernel_records_ := v;
                correlations_ := correlations_ this;
                subscriber_ := subscriber_ this |}, []).

Definition set_correlations_ (v : gmap Z string) : M DeviceTracerImpl unit :=
  fun this =>
    (Done tt {| enabled_ := enabled_ this; start_ns_ := start_ns_ this;
                end_ns_ := end_ns_ this;
                kernel_records_ := kernel_records_ this;
                correlations_ := v;
                subscriber_ := subscriber_ this |}, []).

Definition set_subscriber_ (v : Z) : M DeviceTracerImpl unit :=
  fun this =>
    (Done tt {| enabled_ := enabled_ this; start_ns_ := start_ns_ this;
                end_ns_ := end_ns_ this;
                kernel_records_ := kernel_records_ this;
                correlations_ := correlations_ this;
                subscriber_ := v |}, []).

(** [correlations_[id] = anno]; the key type is [uint32_t]. *)
Definition AddAnnotation (id : Z) (anno : string) : M DeviceTracerImpl unit :=
  let id := u64 id in
  let* this := get in
  set_correlations_ (<[u32 id := anno]> (correlations_ this)).

Definition AddKernelRecords (start end_ device_id stream_id correlation_id : Z)
  : M DeviceTracerImpl unit :=
  let* this := get in
  set_kernel_records_
    (kernel_records_ this ++
     [{| kr_start_ns := u64 start; kr_end_ns := u64 end_;
         kr_device_id := u32 device_id; kr_stream_id := u32 stream_id;
         kr_correlation_id := u32 correlation_id |}]).

Definition IsEnabled : M DeviceTracerImpl bool :=
  let* this := get in ret (enabled_ this).

Definition Enable (env : CuptiEnv) : M DeviceTracerImpl unit :=
  let* this := get in
  if enabled_ this then
    fprintf_stderr MsgAlreadyEnabled
  else
    EnableActivity env ;;
    CUPTI_CALL env cuptiActivityRegisterCallbacks ;;
    emit (Cupti cuptiSubscribe) ;;
    let ret_ := status env cuptiSubscribe in
    match ret_ with
    | CUPTI_SUCCESS => set_subscriber_ (subscriber env)
    | CUPTI_ERROR_MAX_LIMIT_REACHED => fprintf_stderr MsgSubscriberLimit
    | CUPTI_ERROR_OTHER _ => fprintf_stderr MsgSubscriberFailed
    end ;;
    CUPTI_CALL env cuptiEnableCallback ;;
    CUPTI_CALL env cuptiGetTimestamp ;;
    set_start_ns_ (u64 (timestamp env)) ;;
    set_enabled_ true.

(** [correlations_.find(k) == correlations_.end()] *)
Definition correlations_missing (k : Z) : M DeviceTracerImpl bool :=
  let* this := get in
  ret (match correlations_ this !! k with None => true | Some _ => false end).

(** [correlations_.at(k)] *)
Definition correlations_at (k : Z) : M DeviceTracerImpl string :=
  let* this := get in
  match correlations_ this !! k with
  | Some v => ret v
  | None => abort OutOfRange
  end.

(** The body of the loop over [kernel_records_]; [profile_pb] and
    [event_times] are the locals it updates. *)
Definition GenProfile_body (locals : Profile * EventTimes) (r : KernelRecord)
  : M DeviceTracerImpl (Profile * EventTimes) :=
  let (profile_pb, event_times) := locals in
  let* missing := correlations_missing (kr_correlation_id r) in
  if missing : bool then
    fprintf_stderr MsgCannotRelate ;;
    ret (profile_pb, event_times)
  else
    let* nm := correlations_at (kr_correlation_id r) in
    let event :=
      {| name := nm;
         start_ns := kr_start_ns r;
         end_ns := kr_end_ns r;
         device_id := kr_device_id r;
         stream_id := kr_stream_id r |} in
    ret (add_events event profile_pb,
         et_push (name event) (u64 (kr_end_ns r - kr_start_ns r))
           event_times).

(** The body of the loop over [event_times]. *)
Definition GenProfile_summary (et : string * list Z)
  : M DeviceTracerImpl unit :=
  fprintf_stderr
    (MsgKernelTotal (fst et) (accumulate_int (snd et)) (length (snd et))).

Definition GenProfile : M DeviceTracerImpl Profile :=
  let* this := get in
  let profile_pb := Profile_new in
  let profile_pb := set_start_ns (start_ns_ this) profile_pb in
  let profile_pb := set_end_ns (end_ns_ this) profile_pb in
  let* (profile_pb, event_times) :=
    for_fold (kernel_records_ this) GenProfile_body
      (profile_pb, ([] : EventTimes)) in
  for_each event_times GenProfile_summary ;;
  ret profile_pb.

(** [bufferCompleted]: every kernel record of the buffer goes to the
    tracer, the other kinds are skipped. *)
Fixpoint next_records (rs : list CUpti_ActivityKernel3) (last : option nat)
  : M DeviceTracerImpl unit :=
  emit (Cupti cuptiActivityGetNextRecord) ;;
  match rs with
  | record :: rs' =>
      match kind record with
      | CUPTI_ACTIVITY_KIND_KERNEL
      | CUPTI_ACTIVITY_KIND_CONCURRENT_KERNEL =>
          AddKernelRecords (start record) (end_ record) (deviceId record)
            (streamId record) (correlationId record)
      | _ => ret tt
      end ;;
      next_records rs' last
  | [] =>
      match last with
      | None => ret tt
      | Some c =>
          CUPTI_CHECK cuptiActivityGetNextRecord (CUPTI_ERROR_OTHER c)
      end
  end.

Definition bufferCompleted (env : CuptiEnv) (buffer : ActivityBuffer)
  : M DeviceTracerImpl unit :=
  if 0 <? validSize buffer then
    next_records (records buffer) (read_error buffer) ;;
    CUPTI_CALL env cuptiActivityGetNumDroppedRecords ;;
    if negb (dropped buffer =? 0) then
      fprintf_stderr (MsgDropped (u32 (dropped buffer)))
    else ret tt
  else ret tt.

(** The forced flush runs before the lock is taken and hands the pending
    buffers to [bufferCompleted]; [passes] is the behaviour of
    [PADDLE_ENFORCE]. *)
Definition Disable (passes : CUptiResult -> bool) (env : CuptiEnv)
  : M DeviceTracerImpl unit :=
  emit (Cupti cuptiActivityFlushAll) ;;
  for_each (flushed env) (bufferCompleted env) ;;
  DisableActivity env ;;
  emit (Cupti cuptiUnsubscribe) ;;
  CUPTI_CALL env cuptiGetTimestamp ;;
  set_end_ns_ (u64 (timestamp env)) ;;
  emit (Cupti cuptiFinalize) ;;
  PADDLE_ENFORCE passes (status env cuptiFinalize) ;;
  set_enabled_ false.

(** [ApiCallback], run by the source on the launching thread;
    [cur_annotation] is that thread's slot. *)
Definition ApiCallback (cur_annotation : option string)
    (domain : CUpti_CallbackDomain) (cbid : CUpti_CallbackId)
    (cbInfo : CUpti_CallbackData) : M DeviceTracerImpl unit :=
  match domain, cbid with
  | CUPTI_CB_DOMAIN_DRIVER_API, CUPTI_DRIVER_TRACE_CBID_cuLaunchKernel =>
      match callbackSite cbInfo with
      | CUPTI_API_ENTER =>
          match (match cur_annotation with
                 | Some a => Some a
                 | None => symbolName cbInfo
                 end) with
          | Some anno => AddAnnotation (u32 (cb_correlationId cbInfo)) anno
          | None => abort NullString
          end
      | CUPTI_API_EXIT => ret tt
      end
  | _, _ => emit Vlog1
  end.

End Impl.

(** ** [class DeviceTracerDummy] (built without CUPTI)

    The class has no data member. *)

Record DeviceTracerDummy : Set := Build_DeviceTracerDummy {}.

Module Dummy.

Definition new : DeviceTracerDummy := Build_DeviceTracerDummy.

Definition AddAnnotation (id : Z) (anno : string) : M DeviceTracerDummy unit :=
  ret tt.

Definition AddKernelRecords (start end_ device_id stream_id correlation_id : Z)
  : M DeviceTracerDummy unit :=
  ret tt.

Definition IsEnabled : M DeviceTracerDummy bool := ret false.

Definition Enable (env : CuptiEnv) : M DeviceTracerDummy unit := ret tt.

Definition GenProfile : M DeviceTracerDummy Profile := ret Profile_new.

Definition Disable (env : CuptiEnv) : M DeviceTracerDummy unit := ret tt.

End Dummy.

#[export] Instance DeviceTracerImpl_tracer (passes : CUptiResult -> bool)
  : DeviceTracer DeviceTracerImpl := {
  AddAnnotation := Impl.AddAnnotation;
  AddKernelRecords := Impl.AddKernelRecords;
  IsEnabled := Impl.IsEnabled;
  Enable := Impl.Enable;
  GenProfile := Impl.GenProfile;
  Disable := Impl.Disable passes
}.

#[export] Instance DeviceTracerDummy_tracer : DeviceTracer DeviceTracerDummy := {
  AddAnnotation := Dummy.AddAnnotation;
  AddKernelRecords := Dummy.AddKernelRecords;
  IsEnabled := Dummy.IsEnabled;
  Enable := Dummy.Enable;
  GenProfile := Dummy.GenProfile;
  Disable := Dummy.Disable
}.

(** ** The process-wide tracer *)

Inductive TracerObject :=
| ImplObject (t : DeviceTracerImpl)
| DummyObject (t : DeviceTracerDummy).

(** [CreateTracer]; the three integers stand for the members the
    constructor of [DeviceTracerImpl] leaves uninitialised. *)
Definition CreateTracer (PADDLE_WITH_CUPTI : bool)
    (start0 end0 subscriber0 : Z) : TracerObject :=
  if PADDLE_WITH_CUPTI then ImplObject (Impl.new start0 end0 subscriber0)
  else DummyObject Dummy.new.

(** [GetDeviceTracer]: [std::call_once] creates the tracer on the first
    call; the result is the tracer and the new value of the global. *)
Definition GetDeviceTracer (PADDLE_WITH_CUPTI : bool)
    (start0 end0 subscriber0 : Z) (tracer : option TracerObject)
  : TracerObject * option TracerObject :=
  match tracer with
  | Some t => (t, tracer)
  | None =>
      let t := CreateTracer PADDLE_WITH_CUPTI start0 end0 subscriber0 in
      (t, Some t)
  end.

(** Calls that a client can make through the interface. *)
Inductive Call :=
| CallAddAnnotation (id : Z) (anno : string)
| CallAddKernelRecords (start end_ device_id stream_id correlation_id : Z)
| CallEnable (env : CuptiEnv)
| CallDisable (env : CuptiEnv).

Definition call {T} `{DeviceTracer T} (c : Call) : M T unit :=
  match c with
  | CallAddAnnotation id anno => AddAnnotation id anno
  | CallAddKernelRecords s e d st c => AddKernelRecords s e d st c
  | CallEnable env => Enable env
  | CallDisable env => Disable env
  end.

(** ** Reference definitions for the statements

    The join of [GenProfile] written as list functions, to compare with the
    loop of the code. *)

Definition event_of (correlations : gmap Z string) (r : KernelRecord)
  : option Event :=
  match correlations !! kr_correlation_id r with
  | Some nm =>
      Some {| name := nm; start_ns := kr_start_ns r; end_ns := kr_end_ns r;
              device_id := kr_device_id r; stream_id := kr_stream_id r |}
  | None => None
  end.

Definition resolvable (correlations : gmap Z string) (r : KernelRecord) : bool :=
  match correlations !! kr_correlation_id r with
  | Some _ => true
  | None => false
  end.

Definition join_events (correlations : gmap Z string) (rs : list KernelRecord)
  : list Event :=
  omap (event_of correlations) rs.

(** One "cannot relate" line for each record that has no entry. *)
Definition join_log (correlations : gmap Z string) (rs : list KernelRecord)
  : list Effect :=
  flat_map (fun r => if resolvable correlations r then []
                     else [Stderr MsgCannotRelate]) rs.

(** The durations filed under each name. *)
Definition join_times (correlations : gmap Z string) (rs : list KernelRecord)
    (et : EventTimes) : EventTimes :=
  fold_left
    (fun et r =>
       match correlations !! kr_correlation_id r with
       | Some nm => et_push nm (u64 (kr_end_ns r - kr_start_ns r)) et
       | None => et
       end) rs et.

Definition summary_log (et : EventTimes) : list Effect :=
  map (fun kv => Stderr (MsgKernelTotal (fst kv) (accumulate_int (snd kv))
                           (length (snd kv)))) et.

Definition report (this : DeviceTracerImpl) : Profile :=
  {| events := join_events (correlations_ this) (kernel_records_ this);
     profile_start_ns := start_ns_ this;
     profile_end_ns := end_ns_ this |}.

(** The durations filed under [k]; none when [k] is not a key. *)
Definition et_durations (k : string) (et : EventTimes) : list Z :=
  default [] (et_find k et).

Definition is_cannot_relate (e : Effect) : bool :=
  match e with Stderr MsgCannotRelate => true | _ => false end.

Definition cannot_relate_count (log : list Effect) : nat :=
  length (List.filter is_cannot_relate log).

(** The event and the record it was made from. *)
Definition event_matches (correlations : gmap Z string) (r : KernelRecord)
    (e : Event) : Prop :=
  correlations !! kr_correlation_id r = Some (name e) /\
  start_ns e = kr_start_ns r /\
  end_ns e = kr_end_ns r /\
  device_id e = kr_device_id r /\
  stream_id e = kr_stream_id r.

(** The object with another record log. *)
Definition with_kernel_records (rs : list KernelRecord)
    (this : DeviceTracerImpl) : DeviceTracerImpl :=
  {| enabled_ := enabled_ this; start_ns_ := start_ns_ this;
     end_ns_ := end_ns_ this; kernel_records_ := rs;
     correlations_ := correlations_ this;
     subscriber_ := subscriber_ this |}.

(** The states of the two scenarios of the specification. *)
Definition matmul_record : KernelRecord :=
  {| kr_start_ns := 1000; kr_end_ns := 1500; kr_device_id := 0;
     kr_stream_id := 1; kr_correlation_id := 7 |}.

Definition matmul_state : DeviceTracerImpl :=
  {| enabled_ := false; start_ns_ := 0; end_ns_ := 0;
     kernel_records_ := [matmul_record];
     correlations_ := {[ 7 := "matmul_0"%string ]};
     subscriber_ := 0 |}.

Definition orphan_record : KernelRecord :=
  {| kr_start_ns := 10; kr_end_ns := 20; kr_device_id := 0;
     kr_stream_id := 0; kr_correlation_id := 99 |}.

Definition orphan_state : DeviceTracerImpl :=
  {| enabled_ := false; start_ns_ := 0; end_ns_ := 0;
     kernel_records_ := [orphan_record];
     correlations_ := ∅;
     subscriber_ := 0 |}.

Definition matmul_event : Event :=
  {| name := "matmul_0"; start_ns := 1000; end_ns := 1500; device_id := 0;
     stream_id := 1 |}.

(** The scenario as calls: thread 0 sets the annotation, the source
    announces the launch with correlation id 7 and later completes a buffer
    that holds the kernel record. *)
Definition matmul_launch : CUpti_CallbackData :=
  {| callbackSite := CUPTI_API_ENTER; symbolName := Some "_Z6matmulPf"%string;
     cb_correlationId := 7 |}.

Definition matmul_buffer : ActivityBuffer :=
  {| validSize := 64;
     records := [{| kind := CUPTI_ACTIVITY_KIND_KERNEL; start := 1000;
                    end_ := 1500; deviceId := 0; streamId := 1;
                    correlationId := 7 |}];
     read_error := None;
     dropped := 0 |}.

Definition all_success : CuptiEnv :=
  {| status := fun _ => CUPTI_SUCCESS; timestamp := 42; subscriber := 1;
     flushed := [] |}.

Definition matmul_calls : M DeviceTracerImpl unit :=
  let cur_annotation := SetCurAnnotation 0 (Some "matmul_0"%string) ∅ in
  Impl.ApiCallback (cur_annotation !! 0%nat) CUPTI_CB_DOMAIN_DRIVER_API
    CUPTI_DRIVER_TRACE_CBID_cuLaunchKernel matmul_launch ;;
  Impl.bufferCompleted all_success matmul_buffer.


(** The calls to the source made by [Enable] before and after the
    subscription, and those made by [Disable]. *)
Definition Enable_calls_before : list Effect :=
  [Cupti (cuptiActivityEnable CUPTI_ACTIVITY_KIND_MEMCPY);
   Cupti (cuptiActivityEnable CUPTI_ACTIVITY_KIND_KERNEL);
   Cupti (cuptiActivityEnable CUPTI_ACTIVITY_KIND_DEVICE);
   Cupti (cuptiActivityEnable CUPTI_ACTIVITY_KIND_MEMSET);
   Cupti (cuptiActivityEnable CUPTI_ACTIVITY_KIND_OVERHEAD);
   Cupti cuptiActivityRegisterCallbacks;
   Cupti cuptiSubscribe].

Definition Enable_calls_after : list Effect :=
  [Cupti cuptiEnableCallback; Cupti cuptiGetTimestamp].


(** What [Enable] writes about the status of the subscription. *)
Definition subscribe_report (st : CUptiResult) : list Effect :=
  match st with
  | CUPTI_SUCCESS => []
  | CUPTI_ERROR_MAX_LIMIT_REACHED => [Stderr MsgSubscriberLimit]
  | CUPTI_ERROR_OTHER _ => [Stderr MsgSubscriberFailed]
  end.

(** A tracer that was enabled when the clock of the source read 5. *)
Definition enabled_state : DeviceTracerImpl :=
  {| enabled_ := true; start_ns_ := 5; end_ns_ := 0; kernel_records_ := [];
     correlations_ := ∅; subscriber_ := 1 |}.

(** [this] with the entry [id -> anno] written into the table and nothing
    else changed, reached without any output. *)
Definition entry_written (id : Z) (anno : string) (this : DeviceTracerImpl)
    (res : Outcome DeviceTracerImpl unit * list Effect) : Prop :=
  res =
  (Done tt {| enabled_ := enabled_ this; start_ns_ := start_ns_ this;
              end_ns_ := end_ns_ this;
              kernel_records_ := kernel_records_ this;
              correlations_ := <[id := anno]> (correlations_ this);
              subscriber_ := subscriber_ this |}, []).

(** The time an event lasted, and the events of a given name. *)
Definition duration (e : Event) : Z := end_ns e - start_ns e.

Definition named (k : string) (es : list Event) : list Event :=
  List.filter (fun e => String.eqb k (name e)) es.

(** The order of the keys of [EventTimes]. *)
Definition key_lt (a b : string * list Z) : Prop :=
  String.ltb (fst a) (fst b) = true.


(** ** Buffer requests

    [kBufSize] and [kAlignSize] are never assigned after their
    initialisation.  An address is an integer of 64 bits and the alignment
    a [uint64_t]; [ALIGN_BUFFER] reads the address through [uintptr_t] for
    the test and moves the pointer itself, which wraps at 2^64. *)

Definition kBufSize : Z := 32 * 1024.
Definition kAlignSize : Z := 8.

Definition ALIGN_BUFFER (buffer align : Z) : Z :=
  if negb (Z.land (u64 buffer) (u64 (align - 1)) =? 0)
  then u64 (u64 (buffer + align) - Z.land (u64 buffer) (u64 (align - 1)))
  else buffer.

(** What [bufferRequested] stores through its three pointers. *)
Record BufferRequest := {
  req_buffer : Z;
  req_size : Z;
  req_maxNumRecords : Z
}.

(** [bufferRequested]; [buf] is the address returned by [malloc] for
    [kBufSize + kAlignSize] bytes. *)
Definition bufferRequested (buf : Z) : BufferRequest :=
  {| req_size := kBufSize;
     req_buffer := ALIGN_BUFFER buf kAlignSize;
     req_maxNumRecords := 0 |}.

(** ** Reference definitions for the buffers and the life cycle *)

(** The kinds that [bufferCompleted] hands to the tracer. *)
Definition is_kernel_kind (a : CUpti_ActivityKernel3) : bool :=
  match kind a with
  | CUPTI_ACTIVITY_KIND_KERNEL | CUPTI_ACTIVITY_KIND_CONCURRENT_KERNEL => true
  | _ => false
  end.

Definition kernel_record_of (a : CUpti_ActivityKernel3) : KernelRecord :=
  {| kr_start_ns := u64 (start a); kr_end_ns := u64 (end_ a);
     kr_device_id := u32 (deviceId a); kr_stream_id := u32 (streamId a);
     kr_correlation_id := u32 (correlationId a) |}.

(** The records that a completed buffer adds to the log. *)
Definition buffer_records (b : ActivityBuffer) : list KernelRecord :=
  if 0 <? validSize b
  then map kernel_record_of (List.filter is_kernel_kind (records b))
  else [].

(** A buffer that can be read to its end and whose dropped count can be
    queried. *)
Definition buffer_readable (env : CuptiEnv) (b : ActivityBuffer) : Prop :=
  0 < validSize b ->
  read_error b = None /\
  status env cuptiActivityGetNumDroppedRecords = CUPTI_SUCCESS.

(** The calls of [Enable] and of [Disable] whose status goes through
    [CUPTI_CALL]. *)
Definition Enable_checked : list CuptiCall :=
  [cuptiActivityEnable CUPTI_ACTIVITY_KIND_MEMCPY;
   cuptiActivityEnable CUPTI_ACTIVITY_KIND_KERNEL;
   cuptiActivityEnable CUPTI_ACTIVITY_KIND_DEVICE;
   cuptiActivityEnable CUPTI_ACTIVITY_KIND_MEMSET;
   cuptiActivityEnable CUPTI_ACTIVITY_KIND_OVERHEAD;
   cuptiActivityRegisterCallbacks;
   cuptiEnableCallback;
   cuptiGetTimestamp].

Definition Disable_checked : list CuptiCall :=
  [cuptiActivityDisable CUPTI_ACTIVITY_KIND_MEMCPY;
   cuptiActivityDisable CUPTI_ACTIVITY_KIND_KERNEL;
   cuptiActivityDisable CUPTI_ACTIVITY_KIND_DEVICE;
   cuptiActivityDisable CUPTI_ACTIVITY_KIND_CONTEXT;
   cuptiActivityDisable CUPTI_ACTIVITY_KIND_DRIVER;
   cuptiActivityDisable CUPTI_ACTIVITY_KIND_RUNTIME;
   cuptiActivityDisable CUPTI_ACTIVITY_KIND_MEMSET;
   cuptiActivityDisable CUPTI_ACTIVITY_KIND_NAME;
   cuptiActivityDisable CUPTI_ACTIVITY_KIND_MARKER;
   cuptiActivityDisable CUPTI_ACTIVITY_KIND_OVERHEAD;
   cuptiGetTimestamp].

(** The sum of a vector of durations. *)
Definition sum_durations (v : list Z) : Z := fold_right Z.add 0 v.

(** The summary lines as triples. *)
Definition summary_of (e : Effect) : option (string * Z * nat) :=
  match e with
  | Stderr (MsgKernelTotal k total count) => Some (k, total, count)
  | _ => None
  end.

(** The tracer when [Disable] reaches [PADDLE_ENFORCE]: stopped at the
    clock of the source, with the flushed kernel records in its log, and
    enabled or not as it was. *)
Definition before_enforce (env : CuptiEnv) (this : DeviceTracerImpl)
  : DeviceTracerImpl :=
  {| enabled_ := enabled_ this; start_ns_ := start_ns_ this;
     end_ns_ := u64 (timestamp env);
     kernel_records_ :=
       kernel_records_ this ++ flat_map buffer_records (flushed env);
     correlations_ := correlations_ this;
     subscriber_ := subscriber_ this |}.

(** The tracer after a [Disable] that returned: the same, and disabled. *)
Definition after_Disable (env : CuptiEnv) (this : DeviceTracerImpl)
  : DeviceTracerImpl :=
  {| enabled_ := false; start_ns_ := start_ns_ this;
     end_ns_ := u64 (timestamp env);
     kernel_records_ :=
       kernel_records_ this ++ flat_map buffer_records (flushed env);
     correlations_ := correlations_ this;
     subscriber_ := subscriber_ this |}.

(** How [Disable] ends once its checked calls have succeeded. *)
Definition Disable_outcome (passes : CUptiResult -> bool) (env : CuptiEnv)
    (this : DeviceTracerImpl) : Outcome DeviceTracerImpl unit :=
  if passes (status env cuptiFinalize)
  then Done tt (after_Disable env this)
  else Thrown EnforceNotMet (before_enforce env this).

(** A source whose finalisation fails, every other call succeeding. *)
Definition finalize_fails : CuptiEnv :=
  {| status := fun c => match c with
                        | cuptiFinalize => CUPTI_ERROR_OTHER 4
                        | _ => CUPTI_SUCCESS
                        end;
     timestamp := 42; subscriber := 1; flushed := [] |}.

(** A source that completes the buffer of the scenario when it is
    flushed. *)
Definition flushing (st : CuptiCall -> CUptiResult) : CuptiEnv :=
  {| status := st; timestamp := 77; subscriber := 1;
     flushed := [matmul_buffer] |}.

(** The tracer after an [Enable] that went through the setup. *)
Definition after_Enable (env : CuptiEnv) (this : DeviceTracerImpl)
  : DeviceTracerImpl :=
  {| enabled_ := true; start_ns_ := u64 (timestamp env);
     end_ns_ := end_ns_ this;
     kernel_records_ := kernel_records_ this;
     correlations_ := correlations_ this;
     subscriber_ := match status env cuptiSubscribe with
                    | CUPTI_SUCCESS => subscriber env
                    | _ => subscriber_ this
                    end |}.

(** The triple that a summary line prints for an entry of the map. *)
Definition summary_line (kv : string * list Z) : string * Z * nat :=
  (fst kv, accumulate_int (snd kv), length (snd kv)).

Definition line_name (l : string * Z * nat) : string := fst (fst l).

Definition line_lt (a b : string * Z * nat) : Prop :=
  String.ltb (line_name a) (line_name b) = true.

(** * Properties *)

(** ** The loops of [GenProfile] *)

Section GenProfileLoops.

Variable this : DeviceTracerImpl.

Lemma GenProfile_body_run (pb : Profile) (et : EventTimes) (r : KernelRecord) :
  Impl.GenProfile_body (pb, et) r this =
  match correlations_ this !! kr_correlation_id r with
  | Some nm =>
      (Done (add_events
               {| name := nm; start_ns := kr_start_ns r;
                  end_ns := kr_end_ns r; device_id := kr_device_id r;
                  stream_id := kr_stream_id r |} pb,
             et_push nm (u64 (kr_end_ns r - kr_start_ns r)) et) this, [])
  | None => (Done (pb, et) this, [Stderr MsgCannotRelate])
  end.
Proof.
  unfold Impl.GenProfile_body, Impl.correlations_missing,
    Impl.correlations_at, bind, get, ret, fprintf_stderr, emit.
  destruct (correlations_ this !! kr_correlation_id r) as [nm|] eqn:E;
    cbn; rewrite ?E; reflexivity.
Qed.

Lemma GenProfile_loop_run (rs : list KernelRecord) :
  forall (pb : Profile) (et : EventTimes),
    for_fold rs Impl.GenProfile_body (pb, et) this =
    (Done ({| events := events pb ++ join_events (correlations_ this) rs;
              profile_start_ns := profile_start_ns pb;
              profile_end_ns := profile_end_ns pb |},
           join_times (correlations_ this) rs et) this,
     join_log (correlations_ this) rs).
Proof.
  induction rs as [|r rs IH]; intros pb et.
  - cbn. rewrite app_nil_r. destruct pb; reflexivity.
  - cbn [for_fold]. unfold bind at 1. rewrite GenProfile_body_run.
    unfold join_events, join_log, join_times, event_of, resolvable.
    cbn [omap list_omap flat_map fold_left].
    destruct (correlations_ this !! kr_correlation_id r) as [nm|].
    + rewrite IH. cbn. rewrite <- app_assoc. reflexivity.
    + rewrite IH. reflexivity.
Qed.

Lemma GenProfile_summary_run (et : EventTimes) :
  for_each et Impl.GenProfile_summary this = (Done tt this, summary_log et).
Proof.
  induction et as [|kv et IH]; [reflexivity|].
  cbn [for_each]. unfold bind. cbn. rewrite IH. reflexivity.
Qed.

(** [GenProfile] returns the report, leaves the object as it was, and
    writes the "cannot relate" lines followed by the summary lines. *)
Lemma GenProfile_run :
  Impl.GenProfile this =
  (Done (report this) this,
   join_log (correlations_ this) (kernel_records_ this) ++
   summary_log (join_times (correlations_ this) (kernel_records_ this) [])).
Proof.
  unfold Impl.GenProfile. unfold bind at 1. cbn [get].
  unfold bind at 1. rewrite GenProfile_loop_run.
  unfold bind at 1. rewrite GenProfile_summary_run.
  cbn. rewrite app_nil_r. reflexivity.
Qed.

End GenProfileLoops.

(** ** The join *)

Lemma join_events_matches (correlations : gmap Z string) (rs : list KernelRecord) :
  Forall2 (event_matches correlations)
    (List.filter (resolvable correlations) rs) (join_events correlations rs).
Proof.
  induction rs as [|r rs IH]; [constructor|].
  unfold join_events, resolvable, event_of in *. cbn.
  destruct (correlations !! kr_correlation_id r) as [nm|] eqn:E; [|exact IH].
  constructor; [|exact IH]. repeat split; cbn; auto.
Qed.

Lemma join_events_app (correlations : gmap Z string) (l1 l2 : list KernelRecord) :
  join_events correlations (l1 ++ l2) =
  join_events correlations l1 ++ join_events correlations l2.
Proof. unfold join_events. apply omap_app. Qed.

Lemma join_log_app (correlations : gmap Z string) (l1 l2 : list KernelRecord) :
  join_log correlations (l1 ++ l2) =
  join_log correlations l1 ++ join_log correlations l2.
Proof. unfold join_log. apply flat_map_app. Qed.

Lemma cannot_relate_count_app (l1 l2 : list Effect) :
  cannot_relate_count (l1 ++ l2) =
  (cannot_relate_count l1 + cannot_relate_count l2)%nat.
Proof.
  unfold cannot_relate_count. rewrite List.filter_app. apply length_app.
Qed.

Lemma cannot_relate_count_join (correlations : gmap Z string)
    (rs : list KernelRecord) :
  cannot_relate_count (join_log correlations rs) =
  length (List.filter (fun r => negb (resolvable correlations r)) rs).
Proof.
  induction rs as [|r rs IH]; [reflexivity|].
  unfold join_log in *. cbn [flat_map List.filter].
  rewrite cannot_relate_count_app, IH.
  destruct (resolvable correlations r); reflexivity.
Qed.

Lemma cannot_relate_count_summary (et : EventTimes) :
  cannot_relate_count (summary_log et) = 0%nat.
Proof. induction et as [|kv et IH]; [reflexivity|exact IH]. Qed.

Lemma join_events_length (correlations : gmap Z string) (rs : list KernelRecord) :
  length (join_events correlations rs) =
  length (List.filter (resolvable correlations) rs).
Proof.
  symmetry. eapply Forall2_length, join_events_matches.
Qed.

Lemma join_events_drop (correlations : gmap Z string)
    (l1 l2 : list KernelRecord) (r : KernelRecord) :
  correlations !! kr_correlation_id r = None ->
  join_events correlations (l1 ++ r :: l2) = join_events correlations (l1 ++ l2).
Proof.
  intros Hr. rewrite !join_events_app. f_equal.
  unfold join_events. cbn. unfold event_of at 1. rewrite Hr. reflexivity.
Qed.

Lemma join_log_drop (correlations : gmap Z string)
    (l1 l2 : list KernelRecord) (r : KernelRecord) :
  correlations !! kr_correlation_id r = None ->
  cannot_relate_count (join_log correlations (l1 ++ r :: l2)) =
  S (cannot_relate_count (join_log correlations (l1 ++ l2))).
Proof.
  intros Hr.
  change (r :: l2) with ([r] ++ l2).
  rewrite !join_log_app, !cannot_relate_count_app.
  replace (cannot_relate_count (join_log correlations [r])) with 1%nat; [lia|].
  unfold join_log, resolvable. cbn. rewrite Hr. reflexivity.
Qed.

Lemma join_counts (correlations : gmap Z string) (rs : list KernelRecord) :
  (length (join_events correlations rs) +
   cannot_relate_count (join_log correlations rs))%nat = length rs.
Proof.
  rewrite join_events_length, cannot_relate_count_join.
  induction rs as [|x rs IH]; [reflexivity|]. cbn.
  destruct (resolvable correlations x); cbn; lia.
Qed.

(** C1. For every record of the log whose correlation id has an entry in
    the table, [GenProfile] emits exactly one event, named by that entry
    and carrying the record's start, end, device and stream; the events
    come in the order of the log: the events and the records that have an
    entry correspond one to one, position by position. *)
Theorem GenProfile_resolvable_join (this : DeviceTracerImpl) :
  exists (profile : Profile) (log : list Effect),
    Impl.GenProfile this = (Done profile this, log) /\
    profile_start_ns profile = start_ns_ this /\
    profile_end_ns profile = end_ns_ this /\
    Forall2 (event_matches (correlations_ this))
      (List.filter (resolvable (correlations_ this)) (kernel_records_ this))
      (events profile).
Proof.
  eexists _, _. split; [apply GenProfile_run|].
  cbn. repeat split. apply join_events_matches.
Qed.

(** C2. A record of the log whose correlation id has no entry in the
    table yields no event: [GenProfile] returns normally, with the report
    it returns for the log without that record, and writes one more
    "cannot relate" line than for that log; the events and the "cannot
    relate" lines together are as many as the records. *)
Theorem GenProfile_unresolvable_drop (this : DeviceTracerImpl)
    (l1 l2 : list KernelRecord) (r : KernelRecord) :
  kernel_records_ this = l1 ++ r :: l2 ->
  correlations_ this !! kr_correlation_id r = None ->
  exists (profile : Profile) (log log' : list Effect),
    Impl.GenProfile this = (Done profile this, log) /\
    Impl.GenProfile (with_kernel_records (l1 ++ l2) this) =
      (Done profile (with_kernel_records (l1 ++ l2) this), log') /\
    cannot_relate_count log = S (cannot_relate_count log') /\
    (length (events profile) + cannot_relate_count log)%nat =
      length (kernel_records_ this).
Proof.
  intros Hrs Hr.
  eexists _, _, _. split; [apply GenProfile_run|].
  split; [rewrite GenProfile_run; f_equal; f_equal|].
  - unfold report.
    cbn [with_kernel_records correlations_ kernel_records_ start_ns_ end_ns_].
    rewrite Hrs. f_equal. symmetry. apply join_events_drop, Hr.
  - cbn [events report with_kernel_records correlations_ kernel_records_].
    rewrite !cannot_relate_count_app, !cannot_relate_count_summary.
    rewrite !Nat.add_0_r. split.
    + rewrite Hrs. apply join_log_drop, Hr.
    + apply join_counts.
Qed.

(** The drop scenario: a single record with correlation id 99 and an
    empty table give zero events and one "cannot relate" line. *)
Lemma GenProfile_unresolvable_drop_witness :
  exists (profile : Profile) (log log' : list Effect),
    Impl.GenProfile orphan_state = (Done profile orphan_state, log) /\
    Impl.GenProfile (with_kernel_records ([] ++ []) orphan_state) =
      (Done profile (with_kernel_records ([] ++ []) orphan_state), log') /\
    cannot_relate_count log = S (cannot_relate_count log') /\
    (length (events profile) + cannot_relate_count log)%nat =
      length (kernel_records_ orphan_state).
Proof.
  apply (GenProfile_unresolvable_drop orphan_state [] [] orphan_record);
    reflexivity.
Defined.

(** The calls of the scenario lead from a new tracer to [matmul_state]. *)
Lemma matmul_calls_run :
  fst (matmul_calls (Impl.new 0 0 0)) = Done tt matmul_state.
Proof. vm_compute. reflexivity. Qed.

(** C3. With the entry 7 -> "matmul_0" in the table and the single record
    {1000, 1500, device 0, stream 1, correlation id 7} in the log,
    [GenProfile] returns exactly the event {"matmul_0", 1000, 1500, 0, 1},
    and the only line it writes is the summary of "matmul_0" with a total
    of 500 ns and a count of 1. *)
Theorem GenProfile_matmul_scenario (this : DeviceTracerImpl) :
  correlations_ this !! 7 = Some "matmul_0"%string ->
  kernel_records_ this = [matmul_record] ->
  Impl.GenProfile this =
  (Done {| events := [matmul_event];
           profile_start_ns := start_ns_ this;
           profile_end_ns := end_ns_ this |} this,
   [Stderr (MsgKernelTotal "matmul_0" 500 1)]).
Proof.
  intros Hc Hrs. rewrite GenProfile_run. unfold report. rewrite Hrs.
  unfold join_events, join_log, join_times, event_of, resolvable.
  cbn [omap list_omap flat_map fold_left matmul_record kr_correlation_id].
  rewrite Hc. reflexivity.
Qed.

Lemma GenProfile_matmul_scenario_witness :
  Impl.GenProfile matmul_state =
  (Done {| events := [matmul_event];
           profile_start_ns := start_ns_ matmul_state;
           profile_end_ns := end_ns_ matmul_state |} matmul_state,
   [Stderr (MsgKernelTotal "matmul_0" 500 1)]).
Proof.
  apply (GenProfile_matmul_scenario matmul_state); reflexivity.
Defined.

(** C10. [GenProfile] leaves the object as it found it, record log,
    correlation table, enabled flag and timestamps included, so that a
    second call right after the first returns the same report. *)
Theorem GenProfile_read_only (this : DeviceTracerImpl) :
  exists (profile : Profile) (log : list Effect),
    Impl.GenProfile this = (Done profile this, log) /\
    (let* p1 := Impl.GenProfile in
     let* p2 := Impl.GenProfile in
     ret (p1, p2)) this = (Done (profile, profile) this, log ++ log).
Proof.
  eexists _, _. split; [apply GenProfile_run|].
  unfold bind. rewrite !GenProfile_run. cbn. rewrite app_nil_r. reflexivity.
Qed.

(** ** The life cycle *)





Lemma CUPTI_CALL_cases {S} (env : CuptiEnv) (c : CuptiCall) (s : S) :
  (status env c = CUPTI_SUCCESS /\ CUPTI_CALL env c s = (Done tt s, [Cupti c])) \/
  (status env c <> CUPTI_SUCCESS /\
   CUPTI_CALL env c s =
   (Aborted (ProcessExit (-1)),
    [Cupti c; Stderr (MsgCallFailed c (status env c))])).
Proof.
  unfold CUPTI_CALL, CUPTI_CHECK, bind, emit, fprintf_stderr, abort, ret.
  destruct (status env c); [left | right | right]; split;
    try reflexivity; discriminate.
Qed.







(** ** The correlation table *)

Lemma u32_u64 (z : Z) : u32 (u64 z) = u32 z.
Proof.
  unfold u32, u64. apply Z.mod_mod_divide. exists (2 ^ 32). reflexivity.
Qed.

Lemma u32_idemp (z : Z) : u32 (u32 z) = u32 z.
Proof. unfold u32. apply Z.mod_mod. lia. Qed.

Lemma AddAnnotation_run (id : Z) (anno : string) (this : DeviceTracerImpl) :
  entry_written (u32 id) anno this (Impl.AddAnnotation id anno this).
Proof.
  unfold entry_written, Impl.AddAnnotation, Impl.set_correlations_, bind, get.
  cbn. rewrite u32_u64. reflexivity.
Qed.

(** C5. [AddAnnotation] overwrites: after two calls with the same id the
    table maps the id, as a 32-bit key, to the annotation of the second
    call; the other keys and the other members are unchanged, and nothing
    is reported. *)
Theorem AddAnnotation_last_write_wins (this : DeviceTracerImpl) (id : Z)
    (first second : string) :
  exists this' : DeviceTracerImpl,
    (Impl.AddAnnotation id first ;; Impl.AddAnnotation id second) this =
      (Done tt this', []) /\
    correlations_ this' !! u32 id = Some second /\
    (forall k, k <> u32 id -> correlations_ this' !! k = correlations_ this !! k) /\
    kernel_records_ this' = kernel_records_ this /\
    enabled_ this' = enabled_ this /\
    start_ns_ this' = start_ns_ this /\
    end_ns_ this' = end_ns_ this.
Proof.
  eexists. split.
  - unfold bind. rewrite (AddAnnotation_run id first this).
    rewrite AddAnnotation_run. reflexivity.
  - cbn. split; [apply lookup_insert_eq|].
    split; [|repeat split].
    intros k Hk. rewrite !lookup_insert_ne by congruence. reflexivity.
Qed.

Lemma AddAnnotation_last_write_wins_witness :
  exists this' : DeviceTracerImpl,
    (Impl.AddAnnotation 7 "first" ;; Impl.AddAnnotation 7 "second")
      (Impl.new 0 0 0) = (Done tt this', []) /\
    correlations_ this' !! 7 = Some "second"%string /\
    correlations_ this' !! 8 = None.
Proof.
  destruct (AddAnnotation_last_write_wins (Impl.new 0 0 0) 7 "first" "second")
    as (this' & Hrun & Hid & Hother & _).
  exists this'. split; [exact Hrun|]. split; [exact Hid|].
  rewrite (Hother 8); [reflexivity|]. vm_compute. discriminate.
Defined.

(** Two annotations for correlation id 7: the table keeps the second one,
    not the first. *)
Lemma AddAnnotation_first_write_lost :
  exists this' : DeviceTracerImpl,
    (Impl.AddAnnotation 7 "first" ;; Impl.AddAnnotation 7 "second")
      (Impl.new 0 0 0) = (Done tt this', []) /\
    correlations_ this' !! 7 = Some "second"%string /\
    correlations_ this' !! 7 <> Some "first"%string.
Proof.
  eexists. split; [reflexivity|]. split; [reflexivity|].
  vm_compute. discriminate.
Qed.

(** ** The launch callback *)

(** C7. On an enter notification of the kernel launch, the callback writes
    the entry for the notification's correlation id: its text is the
    annotation of the calling thread when that thread has one, and the
    symbol name given by the source otherwise, in particular after
    [ClearCurAnnotation]; an annotation set by another thread plays no
    part. *)
Theorem ApiCallback_enter_annotation (cur_annotation : gmap nat string)
    (thread : nat) (this : DeviceTracerImpl) (cbInfo : CUpti_CallbackData) :
  callbackSite cbInfo = CUPTI_API_ENTER ->
  let launch (slots : gmap nat string) :=
    Impl.ApiCallback (slots !! thread) CUPTI_CB_DOMAIN_DRIVER_API
      CUPTI_DRIVER_TRACE_CBID_cuLaunchKernel cbInfo this in
  let id := u32 (cb_correlationId cbInfo) in
  (forall a, cur_annotation !! thread = Some a ->
     entry_written id a this (launch cur_annotation)) /\
  (forall sym, cur_annotation !! thread = None ->
     symbolName cbInfo = Some sym ->
     entry_written id sym this (launch cur_annotation)) /\
  (forall a, entry_written id a this
     (launch (SetCurAnnotation thread (Some a) cur_annotation))) /\
  (forall sym, symbolName cbInfo = Some sym ->
     entry_written id sym this
       (launch (ClearCurAnnotation thread cur_annotation))) /\
  (forall other a, other <> thread ->
     launch (SetCurAnnotation other a cur_annotation) = launch cur_annotation).
Proof.
  intros Hsite launch id. subst launch id. cbv beta.
  assert (Hset : forall a : string,
    entry_written (u32 (cb_correlationId cbInfo)) a this
      (Impl.ApiCallback (Some a) CUPTI_CB_DOMAIN_DRIVER_API
         CUPTI_DRIVER_TRACE_CBID_cuLaunchKernel cbInfo this)).
  { intros a. unfold Impl.ApiCallback. rewrite Hsite.
    rewrite <- (u32_idemp (cb_correlationId cbInfo)) at 1.
    apply AddAnnotation_run. }
  assert (Hunset : forall sym : string,
    symbolName cbInfo = Some sym ->
    entry_written (u32 (cb_correlationId cbInfo)) sym this
      (Impl.ApiCallback None CUPTI_CB_DOMAIN_DRIVER_API
         CUPTI_DRIVER_TRACE_CBID_cuLaunchKernel cbInfo this)).
  { intros sym Hsym. unfold Impl.ApiCallback. rewrite Hsite, Hsym.
    rewrite <- (u32_idemp (cb_correlationId cbInfo)) at 1.
    apply AddAnnotation_run. }
  repeat split.
  - intros a Ha. rewrite Ha. apply Hset.
  - intros sym Hnone Hsym. rewrite Hnone. apply Hunset, Hsym.
  - intros a. unfold SetCurAnnotation. rewrite lookup_insert_eq. apply Hset.
  - intros sym Hsym. unfold ClearCurAnnotation. rewrite lookup_delete_eq.
    apply Hunset, Hsym.
  - intros other a Hne. unfold SetCurAnnotation.
    destruct a; [rewrite lookup_insert_ne|rewrite lookup_delete_ne];
      auto.
Qed.

(** Thread 0 launches the kernel of the scenario, first with the annotation
    "matmul_0" set and then after clearing it. *)
Lemma ApiCallback_enter_annotation_witness :
  entry_written 7 "matmul_0" (Impl.new 0 0 0)
    (Impl.ApiCallback (SetCurAnnotation 0 (Some "matmul_0"%string) ∅ !! 0%nat)
       CUPTI_CB_DOMAIN_DRIVER_API CUPTI_DRIVER_TRACE_CBID_cuLaunchKernel
       matmul_launch (Impl.new 0 0 0)) /\
  entry_written 7 "_Z6matmulPf" (Impl.new 0 0 0)
    (Impl.ApiCallback ((∅ : gmap nat string) !! 0%nat)
       CUPTI_CB_DOMAIN_DRIVER_API CUPTI_DRIVER_TRACE_CBID_cuLaunchKernel
       matmul_launch (Impl.new 0 0 0)) /\
  entry_written 7 "_Z6matmulPf" (Impl.new 0 0 0)
    (Impl.ApiCallback
       (ClearCurAnnotation 0 (SetCurAnnotation 0 (Some "matmul_0"%string) ∅)
          !! 0%nat)
       CUPTI_CB_DOMAIN_DRIVER_API CUPTI_DRIVER_TRACE_CBID_cuLaunchKernel
       matmul_launch (Impl.new 0 0 0)).
Proof.
  destruct (ApiCallback_enter_annotation
              (SetCurAnnotation 0 (Some "matmul_0"%string) ∅) 0%nat
              (Impl.new 0 0 0) matmul_launch eq_refl)
    as (H1 & _ & _ & H4 & _).
  destruct (ApiCallback_enter_annotation ∅ 0%nat
              (Impl.new 0 0 0) matmul_launch eq_refl)
    as (_ & H2 & _).
  split; [apply H1; reflexivity|].
  split; [apply H2; reflexivity|].
  apply H4. reflexivity.
Defined.

(** ** The tracer of a build without CUPTI *)

(** C8. Without CUPTI the tracer is the dummy, and the dummy is inert:
    [Enable], [Disable], [AddAnnotation] and [AddKernelRecords], alone or
    in any sequence, return with the object unchanged and without any
    effect; before and after them [IsEnabled] answers false and
    [GenProfile] returns the empty report. *)
Theorem Dummy_inert (this : DeviceTracerDummy) (calls : list Call)
    (env : CuptiEnv) (id : Z) (anno : string)
    (start end_ device_id stream_id correlation_id start0 end0 sub0 : Z) :
  CreateTracer false start0 end0 sub0 = DummyObject this /\
  Enable env this = (Done tt this, []) /\
  Disable env this = (Done tt this, []) /\
  AddAnnotation id anno this = (Done tt this, []) /\
  AddKernelRecords start end_ device_id stream_id correlation_id this =
    (Done tt this, []) /\
  IsEnabled this = (Done false this, []) /\
  GenProfile this = (Done Profile_new this, []) /\
  events Profile_new = [] /\
  for_each calls call this = (Done tt this, []) /\
  (for_each calls call ;; IsEnabled) this = (Done false this, []) /\
  (for_each calls call ;; GenProfile) this = (Done Profile_new this, []).
Proof.
  assert (Hcalls : for_each calls call this = (Done tt this, [])).
  { induction calls as [|c calls IH]; [reflexivity|].
    cbn [for_each]. unfold bind.
    replace (call c this) with (@Done DeviceTracerDummy unit tt this, @nil Effect)
      by (destruct c; reflexivity).
    rewrite IH. reflexivity. }
  destruct this.
  repeat (split; [reflexivity|]).
  split; [exact Hcalls|].
  unfold bind. rewrite Hcalls. split; reflexivity.
Qed.

(** ** The durations filed by [GenProfile] *)

Lemma ltb_flip (k k0 : string) :
  String.ltb k k0 = false -> String.eqb k k0 = false -> String.ltb k0 k = true.
Proof.
  unfold String.ltb. intros Hlt Hne. rewrite String.compare_antisym.
  destruct (String.compare k k0) eqn:E; cbn; try reflexivity; try discriminate.
  apply String.compare_eq_iff in E. subst. rewrite String.eqb_refl in Hne. discriminate.
Qed.

Lemma et_append_sorted (k : string) (d : Z) (et : EventTimes) :
  Sorted key_lt et -> Sorted key_lt (et_append k d et).
Proof.
  induction 1 as [|[k0 v0] et Hs IH Hhd]; cbn; [constructor|].
  destruct (String.eqb k k0).
  - constructor; [exact Hs|]. destruct Hhd; constructor; assumption.
  - constructor; [exact IH|].
    destruct Hhd as [|[k1 v1] et' Hlt]; cbn; [constructor|].
    destruct (String.eqb k k1); constructor; exact Hlt.
Qed.

Lemma et_insert_sorted (k : string) (v : list Z) (et : EventTimes) :
  et_find k et = None -> Sorted key_lt et -> Sorted key_lt (et_insert k v et).
Proof.
  intros Hnone Hs. revert Hnone.
  induction Hs as [|[k0 v0] et Hs IH Hhd]; cbn.
  - repeat constructor.
  - destruct (String.eqb k k0) eqn:Hne; [discriminate|]. intros Hnone.
    destruct (String.ltb k k0) eqn:Hlt.
    + constructor; [constructor; assumption|]. constructor. exact Hlt.
    + constructor; [exact (IH Hnone)|].
      destruct Hhd as [|[k1 v1] et' Hlt1]; cbn.
      * constructor. apply ltb_flip; assumption.
      * destruct (String.ltb k k1); constructor;
          [apply ltb_flip; assumption | exact Hlt1].
Qed.

Lemma et_push_sorted (k : string) (d : Z) (et : EventTimes) :
  Sorted key_lt et -> Sorted key_lt (et_push k d et).
Proof.
  intros Hs. unfold et_push. destruct (et_find k et) eqn:E.
  - apply et_append_sorted, Hs.
  - apply et_insert_sorted; assumption.
Qed.

(** The keys of the map built by the loop are in increasing order. *)
Lemma join_times_sorted (correlations : gmap Z string) (rs : list KernelRecord) :
  forall et : EventTimes,
    Sorted key_lt et -> Sorted key_lt (join_times correlations rs et).
Proof.
  induction rs as [|r rs IH]; intros et Het; [exact Het|].
  unfold join_times in *. cbn [fold_left]. apply IH.
  destruct (correlations !! kr_correlation_id r); [|exact Het].
  apply et_push_sorted, Het.
Qed.

Lemma et_find_append (k k' : string) (d : Z) (et : EventTimes) :
  et_find k (et_append k' d et) =
  if String.eqb k k' then option_map (fun v => v ++ [d]) (et_find k et)
  else et_find k et.
Proof.
  induction et as [|[k0 v0] et IH]; cbn.
  - destruct (String.eqb k k'); reflexivity.
  - destruct (String.eqb_spec k' k0) as [->|Hne]; cbn.
    + destruct (String.eqb_spec k k0) as [->|Hne']; reflexivity.
    + rewrite IH.
      destruct (String.eqb_spec k k0) as [->|Hne']; [|reflexivity].
      destruct (String.eqb_spec k0 k'); [congruence|reflexivity].
Qed.

Lemma et_find_insert (k k' : string) (v : list Z) (et : EventTimes) :
  et_find k' et = None ->
  et_find k (et_insert k' v et) =
  if String.eqb k k' then Some v else et_find k et.
Proof.
  induction et as [|[k0 v0] et IH]; cbn; [reflexivity|].
  destruct (String.eqb_spec k' k0) as [->|Hne]; [discriminate|].
  intros Hnone. destruct (String.ltb k' k0); cbn; [reflexivity|].
  rewrite (IH Hnone).
  destruct (String.eqb_spec k k0) as [->|Hne']; [|reflexivity].
  destruct (String.eqb_spec k0 k'); [congruence|reflexivity].
Qed.

Lemma et_durations_push (k k' : string) (d : Z) (et : EventTimes) :
  et_durations k (et_push k' d et) =
  if String.eqb k k' then et_durations k et ++ [d] else et_durations k et.
Proof.
  unfold et_durations, et_push.
  destruct (et_find k' et) as [v|] eqn:E.
  - rewrite et_find_append.
    destruct (String.eqb_spec k k') as [->|Hne]; [|reflexivity].
    rewrite E. reflexivity.
  - rewrite (et_find_insert _ _ _ _ E).
    destruct (String.eqb_spec k k') as [->|Hne]; [|reflexivity].
    rewrite E. reflexivity.
Qed.

Lemma et_push_nonneg (k : string) (d : Z) (et : EventTimes) :
  0 <= d ->
  Forall (fun kv => Forall (fun x => 0 <= x) (snd kv)) et ->
  Forall (fun kv => Forall (fun x => 0 <= x) (snd kv)) (et_push k d et).
Proof.
  intros Hd Het. unfold et_push. destruct (et_find k et) as [v|].
  - induction Het as [|[k0 v0] et Hv Het IH]; cbn; [constructor|].
    destruct (String.eqb k k0); constructor; auto.
    cbn in *. apply Forall_app. split; [exact Hv|]. constructor; auto.
  - induction Het as [|[k0 v0] et Hv Het IH]; cbn.
    + constructor; [|constructor]. cbn. constructor; auto.
    + destruct (String.ltb k k0); repeat (constructor; cbn; auto).
Qed.

Lemma u64_nonneg (z : Z) : 0 <= u64 z.
Proof. unfold u64. apply Z.mod_pos_bound. lia. Qed.

Lemma join_times_nonneg (correlations : gmap Z string) (rs : list KernelRecord) :
  forall et : EventTimes,
    Forall (fun kv => Forall (fun x => 0 <= x) (snd kv)) et ->
    Forall (fun kv => Forall (fun x => 0 <= x) (snd kv))
      (join_times correlations rs et).
Proof.
  induction rs as [|r rs IH]; intros et Het; [exact Het|].
  unfold join_times in *. cbn [fold_left]. apply IH.
  destruct (correlations !! kr_correlation_id r); [|exact Het].
  apply et_push_nonneg; [apply u64_nonneg|exact Het].
Qed.

Lemma join_events_ordered (correlations : gmap Z string) (rs : list KernelRecord) :
  Forall (fun r => kr_start_ns r <= kr_end_ns r) rs ->
  Forall (fun e => 0 <= duration e) (join_events correlations rs).
Proof.
  induction 1 as [|r rs Hr Hrs IH]; [constructor|].
  unfold join_events, event_of in *. cbn.
  destruct (correlations !! kr_correlation_id r); [|exact IH].
  constructor; [|exact IH]. unfold duration. cbn. lia.
Qed.

Lemma join_times_durations (correlations : gmap Z string)
    (rs : list KernelRecord) (k : string) :
  Forall (fun r => kr_start_ns r <= kr_end_ns r) rs ->
  Forall (fun r => 0 <= kr_start_ns r /\ kr_end_ns r < 2 ^ 64) rs ->
  forall et : EventTimes,
    et_durations k (join_times correlations rs et) =
    et_durations k et ++ map duration (named k (join_events correlations rs)).
Proof.
  intros Hord Hrange. revert Hrange.
  induction Hord as [|r rs Hr Hrs IH]; intros Hrange et.
  - cbn. rewrite app_nil_r. reflexivity.
  - inversion Hrange as [|? ? [Hlo Hhi] Hrange']; subst.
    unfold join_times, join_events, event_of, named in *.
    cbn [fold_left omap list_omap].
    destruct (correlations !! kr_correlation_id r) as [nm|];
      [|apply IH; exact Hrange'].
    rewrite (IH Hrange'), et_durations_push. cbn [List.filter name].
    destruct (String.eqb k nm); [|reflexivity].
    cbn [map]. rewrite <- app_assoc. cbn [app]. f_equal. f_equal.
    unfold duration, u64. cbn. apply Z.mod_small. lia.
Qed.

(** C9. When every record of the log ends no earlier than it starts, every
    event of the report does too, so that its duration is not negative.
    The durations that [GenProfile] files under the names are never
    negative, and for records within the range of their type they are,
    name by name and in order, the durations of the events. *)
Theorem GenProfile_durations_nonneg (this : DeviceTracerImpl) :
  Forall (fun r => kr_start_ns r <= kr_end_ns r) (kernel_records_ this) ->
  exists (profile : Profile) (event_times : EventTimes) (log : list Effect),
    for_fold (kernel_records_ this) Impl.GenProfile_body
      (set_end_ns (end_ns_ this) (set_start_ns (start_ns_ this) Profile_new),
       []) this = (Done (profile, event_times) this, log) /\
    fst (Impl.GenProfile this) = Done profile this /\
    Forall (fun e => 0 <= end_ns e - start_ns e) (events profile) /\
    Forall (fun kv => Forall (fun d => 0 <= d) (snd kv)) event_times /\
    (Forall (fun r => 0 <= kr_start_ns r /\ kr_end_ns r < 2 ^ 64)
       (kernel_records_ this) ->
     forall k, et_durations k event_times =
               map duration (named k (events profile))).
Proof.
  intros Hord. eexists _, _, _.
  split; [apply GenProfile_loop_run|].
  split; [rewrite GenProfile_run; reflexivity|].
  cbn [events set_end_ns set_start_ns Profile_new app].
  split; [apply (join_events_ordered _ _ Hord)|].
  split; [apply join_times_nonneg; constructor|].
  intros Hrange k.
  rewrite (join_times_durations _ _ k Hord Hrange). reflexivity.
Qed.

Lemma GenProfile_durations_nonneg_witness :
  exists (profile : Profile) (event_times : EventTimes) (log : list Effect),
    for_fold (kernel_records_ matmul_state) Impl.GenProfile_body
      (set_end_ns (end_ns_ matmul_state)
         (set_start_ns (start_ns_ matmul_state) Profile_new),
       []) matmul_state = (Done (profile, event_times) matmul_state, log) /\
    fst (Impl.GenProfile matmul_state) = Done profile matmul_state /\
    Forall (fun e => 0 <= end_ns e - start_ns e) (events profile) /\
    Forall (fun kv => Forall (fun d => 0 <= d) (snd kv)) event_times /\
    (forall k, et_durations k event_times =
               map duration (named k (events profile))).
Proof.
  destruct (GenProfile_durations_nonneg matmul_state)
    as (profile & event_times & log & H1 & H2 & H3 & H4 & H5).
  - repeat constructor. cbn. lia.
  - exists profile, event_times, log. repeat split; auto.
    apply H5. repeat constructor; cbn; lia.
Defined.

(** ** The process-wide handle *)

(** The tracer is created by the first call of [GetDeviceTracer] and the
    later calls return that same tracer. *)
Lemma GetDeviceTracer_once (with_cupti : bool) (s e h s' e' h' : Z)
    (tracer : option TracerObject) :
  let (t, tracer1) := GetDeviceTracer with_cupti s e h tracer in
  GetDeviceTracer with_cupti s' e' h' tracer1 = (t, tracer1).
Proof. destruct tracer; reflexivity. Qed.

(** * Further properties *)

(** ** Buffer requests *)

Lemma land_low_bits (buffer k : Z) :
  0 <= k <= 64 ->
  Z.land (u64 buffer) (u64 (2 ^ k - 1)) = buffer mod 2 ^ k.
Proof.
  intros Hk.
  assert (Hpos : 0 < 2 ^ k) by (apply Z.pow_pos_nonneg; lia).
  assert (Hle : 2 ^ k <= 2 ^ 64) by (apply Z.pow_le_mono_r; lia).
  unfold u64 at 2. rewrite Z.mod_small by lia.
  replace (2 ^ k - 1) with (Z.ones k) by (rewrite Z.ones_equiv; lia).
  rewrite Z.land_ones by lia. unfold u64.
  apply Z.mod_mod_divide. exists (2 ^ (64 - k)).
  rewrite <- Z.pow_add_r by lia. f_equal. lia.
Qed.

Lemma ALIGN_BUFFER_pow2 (buffer k : Z) :
  0 <= k < 64 ->
  0 <= buffer < 2 ^ 64 ->
  ALIGN_BUFFER buffer (2 ^ k) mod 2 ^ k = 0 /\
  0 <= ALIGN_BUFFER buffer (2 ^ k) < 2 ^ 64 /\
  (ALIGN_BUFFER buffer (2 ^ k) = buffer <-> buffer mod 2 ^ k = 0) /\
  (buffer <= 2 ^ 64 - 2 ^ k ->
   buffer <= ALIGN_BUFFER buffer (2 ^ k) < buffer + 2 ^ k) /\
  (2 ^ 64 - 2 ^ k < buffer -> ALIGN_BUFFER buffer (2 ^ k) = 0).
Proof.
  intros Hk Hb.
  assert (Hpos : 0 < 2 ^ k) by (apply Z.pow_pos_nonneg; lia).
  assert (Hq : 0 < 2 ^ (64 - k)) by (apply Z.pow_pos_nonneg; lia).
  assert (HN : 2 ^ 64 = 2 ^ k * 2 ^ (64 - k)).
  { rewrite <- Z.pow_add_r by lia. f_equal. lia. }
  unfold ALIGN_BUFFER. rewrite (land_low_bits buffer k) by lia.
  pose proof (Z.mod_pos_bound buffer (2 ^ k) Hpos) as Hm.
  pose proof (Z.div_mod buffer (2 ^ k) ltac:(lia)) as Hdm.
  set (P := 2 ^ k) in *. set (Q := 2 ^ (64 - k)) in *.
  set (m := buffer mod P) in *. set (q := buffer / P) in *.
  assert (Hqlt : q < Q) by nia.
  assert (Hq0 : 0 <= q) by nia.
  destruct (Z.eqb_spec m 0) as [H0|Hn0]; cbn [negb].
  - repeat split; try lia; try nia.
  - unfold u64. rewrite Zminus_mod_idemp_l.
    replace (buffer + P - m) with ((q + 1) * P) by lia.
    destruct (Z.eq_dec (q + 1) Q) as [Heq|Hne].
    + replace ((q + 1) * P) with (2 ^ 64) by nia.
      rewrite Z.mod_same by lia. rewrite Z.mod_0_l by lia.
      repeat split; try lia; try nia.
    + rewrite (Z.mod_small ((q + 1) * P)) by nia.
      rewrite Z.mod_mul by lia.
      repeat split; try lia; try nia.
Qed.

(** X1. For an alignment that is a power of two that a [uint64_t] holds
    and a 64-bit address, [ALIGN_BUFFER] returns a multiple of the
    alignment, and the address itself exactly when the address is aligned.
    When the address is no more than one alignment below 2^64 the result is
    the first aligned address at or after it; above that the pointer wraps
    and the result is 0. *)
Theorem ALIGN_BUFFER_aligned (buffer k : Z) :
  0 <= k < 64 ->
  0 <= buffer < 2 ^ 64 ->
  ALIGN_BUFFER buffer (2 ^ k) mod 2 ^ k = 0 /\
  0 <= ALIGN_BUFFER buffer (2 ^ k) < 2 ^ 64 /\
  (ALIGN_BUFFER buffer (2 ^ k) = buffer <-> buffer mod 2 ^ k = 0) /\
  (buffer <= 2 ^ 64 - 2 ^ k ->
   buffer <= ALIGN_BUFFER buffer (2 ^ k) < buffer + 2 ^ k) /\
  (2 ^ 64 - 2 ^ k < buffer -> ALIGN_BUFFER buffer (2 ^ k) = 0).
Proof. apply ALIGN_BUFFER_pow2. Qed.

(** An address in the block, and the last address of the address space. *)
Lemma ALIGN_BUFFER_aligned_witness :
  (1003 <= ALIGN_BUFFER 1003 (2 ^ 3) < 1003 + 2 ^ 3 /\
   ALIGN_BUFFER 1003 (2 ^ 3) mod 2 ^ 3 = 0) /\
  ALIGN_BUFFER (2 ^ 64 - 1) (2 ^ 3) = 0.
Proof.
  split.
  - destruct (ALIGN_BUFFER_aligned 1003 3) as (H1 & _ & _ & H4 & _);
      [lia | lia |]. split; [apply H4; lia | exact H1].
  - destruct (ALIGN_BUFFER_aligned (2 ^ 64 - 1) 3) as (_ & _ & _ & _ & H5);
      [lia | lia |]. apply H5. lia.
Defined.

(** X2. The buffer that [bufferRequested] announces lies inside the block
    it allocated, for a block of [kBufSize + kAlignSize] bytes that lies in
    the address space: it starts at an address that is a multiple of 8, at
    or after the start of the block, and its 32768 bytes end before the end
    of the block; it starts at the block's own address exactly when that
    address is a multiple of 8.  The number of records is left
    unlimited. *)
Theorem bufferRequested_within_block (buf : Z) :
  0 <= buf ->
  buf + (kBufSize + kAlignSize) <= 2 ^ 64 ->
  let r := bufferRequested buf in
  req_buffer r mod 8 = 0 /\
  buf <= req_buffer r /\
  req_buffer r + req_size r < buf + (kBufSize + kAlignSize) /\
  req_size r = 32768 /\
  req_maxNumRecords r = 0 /\
  (req_buffer r = buf <-> buf mod 8 = 0).
Proof.
  intros H0 Hend. cbv zeta. unfold bufferRequested.
  cbn [req_buffer req_size req_maxNumRecords].
  unfold kBufSize, kAlignSize in *.
  destruct (ALIGN_BUFFER_pow2 buf 3) as (Ha & _ & Hc & Hd & _); [lia|lia|].
  change (2 ^ 3) with 8 in *.
  specialize (Hd ltac:(lia)).
  repeat split; try tauto; lia.
Qed.

Lemma bufferRequested_within_block_witness :
  let r := bufferRequested 1003 in
  req_buffer r mod 8 = 0 /\
  1003 <= req_buffer r /\
  req_buffer r + req_size r < 1003 + (kBufSize + kAlignSize) /\
  req_size r = 32768 /\
  req_maxNumRecords r = 0 /\
  (req_buffer r = 1003 <-> 1003 mod 8 = 0).
Proof.
  apply (bufferRequested_within_block 1003); unfold kBufSize, kAlignSize; lia.
Defined.

(** ** Sequencing *)

Lemma bind_Done {S A B} (m : M S A) (k : A -> M S B) (s s' : S) (a : A)
    (l : list Effect) :
  m s = (Done a s', l) ->
  bind m k s = (fst (k a s'), l ++ snd (k a s')).
Proof. intros H. unfold bind. rewrite H. destruct (k a s'). reflexivity. Qed.

Lemma bind_Aborted {S A B} (m : M S A) (k : A -> M S B) (s : S) (e : Abort)
    (l : list Effect) :
  m s = (Aborted e, l) -> bind m k s = (Aborted e, l).
Proof. intros H. unfold bind. rewrite H. reflexivity. Qed.

Lemma bind_Thrown {S A B} (m : M S A) (k : A -> M S B) (s s' : S) (e : Abort)
    (l : list Effect) :
  m s = (Thrown e s', l) -> bind m k s = (Thrown e s', l).
Proof. intros H. unfold bind. rewrite H. reflexivity. Qed.

Lemma with_kernel_records_same (this : DeviceTracerImpl) :
  with_kernel_records (kernel_records_ this) this = this.
Proof. destruct this; reflexivity. Qed.

(** ** Completed buffers *)

Lemma AddKernelRecords_run (s e d st c : Z) (this : DeviceTracerImpl) :
  Impl.AddKernelRecords s e d st c this =
  (Done tt (with_kernel_records
              (kernel_records_ this ++
               [{| kr_start_ns := u64 s; kr_end_ns := u64 e;
                   kr_device_id := u32 d; kr_stream_id := u32 st;
                   kr_correlation_id := u32 c |}]) this), []).
Proof. reflexivity. Qed.

Lemma next_records_run (rs : list CUpti_ActivityKernel3) (last : option nat) :
  forall this : DeviceTracerImpl,
    Impl.next_records rs last this =
    match last with
    | None =>
        (Done tt (with_kernel_records
                    (kernel_records_ this ++
                     map kernel_record_of (List.filter is_kernel_kind rs))
                    this),
         replicate (S (length rs)) (Cupti cuptiActivityGetNextRecord))
    | Some c =>
        (Aborted (ProcessExit (-1)),
         replicate (S (length rs)) (Cupti cuptiActivityGetNextRecord) ++
         [Stderr (MsgCallFailed cuptiActivityGetNextRecord
                    (CUPTI_ERROR_OTHER c))])
    end.
Proof.
  induction rs as [|r rs IH]; intros this.
  - destruct last; cbn; [reflexivity|].
    rewrite app_nil_r, with_kernel_records_same. reflexivity.
  - cbn [Impl.next_records]. unfold bind at 1. cbn [emit].
    assert (Hstep :
      (match kind r with
       | CUPTI_ACTIVITY_KIND_KERNEL | CUPTI_ACTIVITY_KIND_CONCURRENT_KERNEL =>
           Impl.AddKernelRecords (start r) (end_ r) (deviceId r)
             (streamId r) (correlationId r)
       | _ => ret tt
       end) this =
      (Done tt (with_kernel_records
                  (kernel_records_ this ++
                   (if is_kernel_kind r then [kernel_record_of r] else []))
                  this), [])).
    { unfold is_kernel_kind.
      destruct (kind r);
        rewrite ?app_nil_r, ?with_kernel_records_same; reflexivity. }
    rewrite (bind_Done _ _ _ _ _ _ Hstep), IH.
    cbn [List.filter with_kernel_records kernel_records_ enabled_ start_ns_
         end_ns_ correlations_ subscriber_].
    destruct last, (is_kernel_kind r); cbn; rewrite ?app_nil_r, <- ?app_assoc;
      reflexivity.
Qed.

Lemma bufferCompleted_run (env : CuptiEnv) (b : ActivityBuffer)
    (this : DeviceTracerImpl) :
  Impl.bufferCompleted env b this =
  if 0 <? validSize b then
    let reads :=
      replicate (S (length (records b))) (Cupti cuptiActivityGetNextRecord) in
    match read_error b with
    | Some c =>
        (Aborted (ProcessExit (-1)),
         reads ++ [Stderr (MsgCallFailed cuptiActivityGetNextRecord
                             (CUPTI_ERROR_OTHER c))])
    | None =>
        match status env cuptiActivityGetNumDroppedRecords with
        | CUPTI_SUCCESS =>
            (Done tt (with_kernel_records
                        (kernel_records_ this ++ buffer_records b) this),
             reads ++ [Cupti cuptiActivityGetNumDroppedRecords] ++
             (if dropped b =? 0 then []
              else [Stderr (MsgDropped (u32 (dropped b)))]))
        | st =>
            (Aborted (ProcessExit (-1)),
             reads ++ [Cupti cuptiActivityGetNumDroppedRecords;
                       Stderr (MsgCallFailed
                                 cuptiActivityGetNumDroppedRecords st)])
        end
    end
  else (Done tt this, []).
Proof.
  unfold Impl.bufferCompleted, buffer_records.
  destruct (0 <? validSize b); [|reflexivity].
  unfold bind at 1. rewrite next_records_run.
  destruct (read_error b); [reflexivity|].
  unfold CUPTI_CALL, CUPTI_CHECK, bind, emit, fprintf_stderr, abort, ret.
  destruct (status env cuptiActivityGetNumDroppedRecords);
    destruct (dropped b =? 0); cbn; rewrite ?app_nil_r; reflexivity.
Qed.

(** X3. A completed buffer with valid bytes, read to its end, adds to the
    log exactly its records of the kinds kernel and concurrent kernel, in
    the order of the buffer and after the records that were there; records
    of other kinds are skipped and nothing else in the tracer changes.  The
    source is asked for the next record once more than there are records,
    and a dropped count that is not zero is written to [stderr] without
    stopping anything. *)
Theorem bufferCompleted_appends_kernels (env : CuptiEnv) (b : ActivityBuffer)
    (this : DeviceTracerImpl) :
  0 < validSize b ->
  read_error b = None ->
  status env cuptiActivityGetNumDroppedRecords = CUPTI_SUCCESS ->
  exists log : list Effect,
    Impl.bufferCompleted env b this =
      (Done tt (with_kernel_records
                  (kernel_records_ this ++
                   map kernel_record_of
                     (List.filter is_kernel_kind (records b))) this), log) /\
    List.filter is_cupti log =
      replicate (S (length (records b))) (Cupti cuptiActivityGetNextRecord) ++
      [Cupti cuptiActivityGetNumDroppedRecords] /\
    List.filter is_stderr log =
      if dropped b =? 0 then [] else [Stderr (MsgDropped (u32 (dropped b)))].
Proof.
  intros Hv Hr Hs. rewrite bufferCompleted_run. unfold buffer_records.
  destruct (Z.ltb_spec 0 (validSize b)) as [_|]; [|lia].
  cbv zeta. rewrite Hr, Hs. eexists. split; [reflexivity|].
  assert (Hc : forall n, List.filter is_cupti
            (replicate n (Cupti cuptiActivityGetNextRecord)) =
            replicate n (Cupti cuptiActivityGetNextRecord)).
  { induction n as [|n IHn]; cbn; [reflexivity|]. rewrite IHn. reflexivity. }
  assert (He : forall n, List.filter is_stderr
            (replicate n (Cupti cuptiActivityGetNextRecord)) = []).
  { induction n as [|n IHn]; cbn; [reflexivity|]. exact IHn. }
  rewrite !List.filter_app, Hc, He.
  destruct (dropped b =? 0); cbn; rewrite ?app_nil_r; split; reflexivity.
Qed.

Lemma bufferCompleted_appends_kernels_witness :
  exists log : list Effect,
    Impl.bufferCompleted all_success matmul_buffer (Impl.new 0 0 0) =
      (Done tt (with_kernel_records
                  (kernel_records_ (Impl.new 0 0 0) ++
                   map kernel_record_of
                     (List.filter is_kernel_kind (records matmul_buffer)))
                  (Impl.new 0 0 0)), log) /\
    List.filter is_cupti log =
      replicate (S (length (records matmul_buffer)))
        (Cupti cuptiActivityGetNextRecord) ++
      [Cupti cuptiActivityGetNumDroppedRecords] /\
    List.filter is_stderr log =
      if dropped matmul_buffer =? 0 then []
      else [Stderr (MsgDropped (u32 (dropped matmul_buffer)))].
Proof.
  apply (bufferCompleted_appends_kernels all_success matmul_buffer
           (Impl.new 0 0 0)); [reflexivity | reflexivity | reflexivity].
Defined.

Lemma bufferCompleted_cases (env : CuptiEnv) (b : ActivityBuffer)
    (this : DeviceTracerImpl) :
  (buffer_readable env b /\
   exists log, Impl.bufferCompleted env b this =
     (Done tt (with_kernel_records (kernel_records_ this ++ buffer_records b)
                 this), log)) \/
  (~ buffer_readable env b /\
   exists log, Impl.bufferCompleted env b this =
     (Aborted (ProcessExit (-1)), log)).
Proof.
  rewrite bufferCompleted_run. unfold buffer_readable, buffer_records.
  destruct (Z.ltb_spec 0 (validSize b)) as [Hv|Hv]; cbv zeta.
  - destruct (read_error b) as [c|];
      [|destruct (status env cuptiActivityGetNumDroppedRecords) eqn:Hs].
    + right. split; [|eexists; reflexivity].
      intros Hr. destruct (Hr Hv). discriminate.
    + left. split; [|eexists; reflexivity]. intros _. split; reflexivity.
    + right. split; [|eexists; reflexivity].
      intros Hr. destruct (Hr Hv). discriminate.
    + right. split; [|eexists; reflexivity].
      intros Hr. destruct (Hr Hv). discriminate.
  - left. split; [intros; lia|].
    rewrite app_nil_r, with_kernel_records_same. eexists. reflexivity.
Qed.



(** ** Disabling *)

Lemma flush_cases (env : CuptiEnv) (bs : list ActivityBuffer) :
  forall this : DeviceTracerImpl,
    (Forall (buffer_readable env) bs /\
     exists log, for_each bs (Impl.bufferCompleted env) this =
       (Done tt (with_kernel_records
                   (kernel_records_ this ++ flat_map buffer_records bs) this),
        log)) \/
    (~ Forall (buffer_readable env) bs /\
     exists log, for_each bs (Impl.bufferCompleted env) this =
       (Aborted (ProcessExit (-1)), log)).
Proof.
  induction bs as [|b bs IH]; intros this.
  - left. split; [constructor|]. cbn. rewrite app_nil_r, with_kernel_records_same.
    eexists. reflexivity.
  - cbn [for_each flat_map].
    destruct (bufferCompleted_cases env b this)
      as [[Hr [l Hrun]]|[Hr [l Hrun]]].
    + rewrite (bind_Done _ _ _ _ _ _ Hrun).
      destruct (IH (with_kernel_records
                      (kernel_records_ this ++ buffer_records b) this))
        as [[Hrs [l' Hrun']]|[Hrs [l' Hrun']]]; rewrite Hrun'.
      * left. split; [constructor; assumption|].
        cbn. rewrite <- app_assoc. eexists. reflexivity.
      * right. split; [|eexists; reflexivity].
        intros HF. inversion HF. contradiction.
    + rewrite (bind_Aborted _ _ _ _ _ Hrun).
      right. split; [|eexists; reflexivity].
      intros HF. inversion HF. contradiction.
Qed.

(** A required call is in the list of the checked calls. *)
Ltac checked_call :=
  cbn; repeat (try (left; reflexivity); right).

(** A call that failed contradicts the success of all checked calls. *)
Ltac not_all_success :=
  let HF := fresh "HF" in
  intros HF; rewrite List.Forall_forall in HF;
  match goal with
  | H : status _ ?c <> CUPTI_SUCCESS |- _ =>
      apply H, HF; checked_call
  end.

Ltac step_call env :=
  match goal with
  | |- context [CUPTI_CALL env ?c ?s] =>
      destruct (CUPTI_CALL_cases env c s) as [[? ->] | [? ->]]
  end;
  cbn -[CUPTI_CALL].

Lemma Disable_cases (passes : CUptiResult -> bool) (env : CuptiEnv)
    (this : DeviceTracerImpl) :
  (Forall (fun c => status env c = CUPTI_SUCCESS) Disable_checked /\
   Forall (buffer_readable env) (flushed env) /\
   exists log, Impl.Disable passes env this =
                 (Disable_outcome passes env this, log)) \/
  (~ Forall (buffer_readable env) (flushed env) /\
   exists log, Impl.Disable passes env this =
                 (Aborted (ProcessExit (-1)), log)) \/
  (~ Forall (fun c => status env c = CUPTI_SUCCESS) Disable_checked /\
   exists log, Impl.Disable passes env this =
                 (Aborted (ProcessExit (-1)), log)).
Proof.
  unfold Impl.Disable.
  rewrite (bind_Done (emit _) _ this this tt _ eq_refl).
  destruct (flush_cases env (flushed env) this)
    as [[Hr [l Hrun]]|[Hr [l Hrun]]].
  2:{ rewrite (bind_Aborted _ _ _ _ _ Hrun). right. left.
      split; [exact Hr|]. eexists. reflexivity. }
  rewrite (bind_Done _ _ _ _ _ _ Hrun).
  unfold DisableActivity, bind.
  repeat (step_call env;
          [|right; right; split; [not_all_success|];
            eexists; reflexivity]).
  left. split; [repeat constructor; assumption|].
  split; [exact Hr|].
  unfold Disable_outcome, PADDLE_ENFORCE.
  destruct (passes (status env cuptiFinalize)); eexists; reflexivity.
Qed.

(** X5. However [Disable] ends short of the exit of the process, the
    clock of the source is in [end_ns_] and the kernel records of the
    buffers that the forced flush completed are in the log, after the
    records that were there and in the order of the buffers; [start_ns_]
    and the correlation table are as before.  When [Disable] returns the
    tracer is disabled; when [PADDLE_ENFORCE] throws, the exception is the
    only one that [Disable] lets out and the tracer is enabled or not as it
    was before the call. *)
Theorem Disable_drains_flushed (passes : CUptiResult -> bool)
    (env : CuptiEnv) (this this' : DeviceTracerImpl) (log : list Effect) :
  (Impl.Disable passes env this = (Done tt this', log) ->
   enabled_ this' = false /\
   end_ns_ this' = u64 (timestamp env) /\
   start_ns_ this' = start_ns_ this /\
   kernel_records_ this' =
     kernel_records_ this ++ flat_map buffer_records (flushed env) /\
   correlations_ this' = correlations_ this) /\
  (forall e,
   Impl.Disable passes env this = (Thrown e this', log) ->
   e = EnforceNotMet /\
   enabled_ this' = enabled_ this /\
   end_ns_ this' = u64 (timestamp env) /\
   start_ns_ this' = start_ns_ this /\
   kernel_records_ this' =
     kernel_records_ this ++ flat_map buffer_records (flushed env) /\
   correlations_ this' = correlations_ this).
Proof.
  destruct (Disable_cases passes env this)
    as [(_ & _ & l & H)|[(_ & l & H)|(_ & l & H)]];
    rewrite H; try (split; [|intros e]; discriminate).
  unfold Disable_outcome.
  destruct (passes (status env cuptiFinalize)).
  - split; [|intros e; discriminate].
    intros Hrun. inversion Hrun. repeat split.
  - split; [discriminate|].
    intros e Hrun. inversion Hrun. repeat split.
Qed.

(** A tracer that is enabled, a source that completes the buffer of the
    scenario at the flush and the macro that tests a truth value: with a
    finalisation that fails [Disable] returns, with one that succeeds it
    throws; the record is in the log both times. *)
Lemma Disable_drains_flushed_witness :
  (enabled_ (after_Disable
               (flushing (status finalize_fails)) enabled_state) = false /\
   kernel_records_ (after_Disable
               (flushing (status finalize_fails)) enabled_state) =
     [] ++ [matmul_record]) /\
  (enabled_ (before_enforce
               (flushing (status all_success)) enabled_state) = true /\
   kernel_records_ (before_enforce
               (flushing (status all_success)) enabled_state) =
     [] ++ [matmul_record]).
Proof.
  split.
  - destruct (Disable_drains_flushed truth_value
                (flushing (status finalize_fails)) enabled_state
                (after_Disable (flushing (status finalize_fails))
                   enabled_state)
                (snd (Impl.Disable truth_value
                        (flushing (status finalize_fails)) enabled_state)))
      as [Hdone _].
    destruct (Hdone eq_refl) as (H1 & _ & _ & H4 & _).
    split; [exact H1|exact H4].
  - destruct (Disable_drains_flushed truth_value
                (flushing (status all_success)) enabled_state
                (before_enforce (flushing (status all_success))
                   enabled_state)
                (snd (Impl.Disable truth_value
                        (flushing (status all_success)) enabled_state)))
      as [_ Hthrown].
    destruct (Hthrown EnforceNotMet eq_refl) as (_ & H1 & _ & _ & H4 & _).
    split; [exact H1|exact H4].
Defined.



(** ** Enabling *)

Lemma Enable_cases (env : CuptiEnv) (this : DeviceTracerImpl) :
  enabled_ this = false ->
  (Forall (fun c => status env c = CUPTI_SUCCESS) Enable_checked /\
   Impl.Enable env this =
     (Done tt (after_Enable env this),
      Enable_calls_before ++ subscribe_report (status env cuptiSubscribe) ++
      Enable_calls_after)) \/
  (~ Forall (fun c => status env c = CUPTI_SUCCESS) Enable_checked /\
   exists log, Impl.Enable env this = (Aborted (ProcessExit (-1)), log)).
Proof.
  intros He. unfold Impl.Enable, EnableActivity, bind, get. rewrite He.
  repeat (step_call env;
          [|right; split; [not_all_success|eexists; reflexivity]]).
  destruct (status env cuptiSubscribe) eqn:Hsub; cbn -[CUPTI_CALL];
    repeat (step_call env;
            [|right; split; [not_all_success|eexists; reflexivity]]);
    left; (split; [repeat constructor; assumption|]);
    unfold after_Enable; rewrite Hsub; reflexivity.
Qed.

(** X7. [Enable] never resets what was collected: whenever it returns,
    the tracer is enabled and the record log, the correlation table and
    [end_ns_] are those of before, so that the records and annotations of an
    earlier session stay.  From a disabled tracer it returns only if every
    checked call of the setup succeeded, and [start_ns_] is then the clock
    of the source. *)
Theorem Enable_keeps_log (env : CuptiEnv) (this this' : DeviceTracerImpl)
    (log : list Effect) :
  Impl.Enable env this = (Done tt this', log) ->
  enabled_ this' = true /\
  kernel_records_ this' = kernel_records_ this /\
  correlations_ this' = correlations_ this /\
  end_ns_ this' = end_ns_ this /\
  (enabled_ this = false ->
   start_ns_ this' = u64 (timestamp env) /\
   Forall (fun c => status env c = CUPTI_SUCCESS) Enable_checked).
Proof.
  intros Hrun. destruct (enabled_ this) eqn:He.
  - unfold Impl.Enable, bind, get in Hrun. rewrite He in Hrun.
    cbn in Hrun. inversion Hrun. subst this'.
    split; [exact He|]. repeat (split; [reflexivity|]).
    intros Hf. discriminate Hf.
  - destruct (Enable_cases env this He) as [[Hc H]|[Hc [l H]]];
      rewrite H in Hrun; inversion Hrun.
    repeat split. exact Hc.
Qed.

Lemma Enable_keeps_log_witness :
  enabled_ (after_Enable all_success matmul_state) = true /\
  kernel_records_ (after_Enable all_success matmul_state) = [matmul_record] /\
  start_ns_ (after_Enable all_success matmul_state) = u64 42.
Proof.
  destruct (Enable_keeps_log all_success matmul_state
              (after_Enable all_success matmul_state)
              (snd (Impl.Enable all_success matmul_state)) eq_refl)
    as (H1 & H2 & _ & _ & H5).
  destruct (H5 eq_refl) as [H6 _].
  split; [exact H1|]. split; [exact H2|exact H6].
Defined.

(** ** A session *)

(** X8. A session on a disabled tracer whose checked setup and teardown
    calls succeed: [IsEnabled] answers true after [Enable].  If
    [PADDLE_ENFORCE] lets the status of the finalisation pass, [Disable]
    returns, [IsEnabled] then answers false, and the report made after it
    carries the two clock readings as [start_ns] and [end_ns] and joins the
    table with the records that were there followed by the flushed ones.
    If the macro throws, the calls after [Disable] are not reached; the
    tracer it leaves still answers true to [IsEnabled] and gives that same
    report. *)
Theorem session_report (passes : CUptiResult -> bool) (env1 env2 : CuptiEnv)
    (this : DeviceTracerImpl) :
  enabled_ this = false ->
  Forall (fun c => status env1 c = CUPTI_SUCCESS) Enable_checked ->
  Forall (fun c => status env2 c = CUPTI_SUCCESS) Disable_checked ->
  Forall (buffer_readable env2) (flushed env2) ->
  let session_profile :=
    {| events :=
         join_events (correlations_ this)
           (kernel_records_ this ++ flat_map buffer_records (flushed env2));
       profile_start_ns := u64 (timestamp env1);
       profile_end_ns := u64 (timestamp env2) |} in
  fst ((Impl.Enable env1 ;; Impl.IsEnabled) this) =
    Done true (after_Enable env1 this) /\
  (passes (status env2 cuptiFinalize) = true ->
   fst ((Impl.Enable env1 ;; Impl.Disable passes env2 ;; Impl.IsEnabled)
          this) =
     Done false (after_Disable env2 (after_Enable env1 this)) /\
   fst ((Impl.Enable env1 ;; Impl.Disable passes env2 ;; Impl.GenProfile)
          this) =
     Done session_profile (after_Disable env2 (after_Enable env1 this))) /\
  (passes (status env2 cuptiFinalize) = false ->
   fst ((Impl.Enable env1 ;; Impl.Disable passes env2 ;; Impl.GenProfile)
          this) =
     Thrown EnforceNotMet (before_enforce env2 (after_Enable env1 this)) /\
   fst (Impl.IsEnabled (before_enforce env2 (after_Enable env1 this))) =
     Done true (before_enforce env2 (after_Enable env1 this)) /\
   fst (Impl.GenProfile (before_enforce env2 (after_Enable env1 this))) =
     Done session_profile (before_enforce env2 (after_Enable env1 this))).
Proof.
  intros He H1 H2 Hb. cbv zeta.
  destruct (Enable_cases env1 this He) as [[_ HE]|[Hn _]]; [|contradiction].
  destruct (Disable_cases passes env2 (after_Enable env1 this))
    as [(_ & _ & l & HD)|[(Hn & _)|(Hn & _)]]; [|contradiction..].
  unfold Disable_outcome in HD.
  rewrite !(bind_Done _ _ _ _ _ _ HE).
  split; [reflexivity|]. split; intros Hp; rewrite Hp in HD.
  - rewrite !(bind_Done _ _ _ _ _ _ HD), GenProfile_run.
    split; reflexivity.
  - rewrite (bind_Thrown _ _ _ _ _ _ HD), GenProfile_run.
    repeat split.
Qed.

(** The session of the scenario with the macro that tests a truth value:
    the finalisation succeeds, [Disable] throws, and the tracer it leaves
    is enabled and reports the kernel between the two clock readings. *)
Lemma session_report_witness :
  fst ((Impl.Enable all_success ;;
        Impl.Disable truth_value (flushing (status all_success)) ;;
        Impl.GenProfile)
         {| enabled_ := false; start_ns_ := 0; end_ns_ := 0;
            kernel_records_ := [];
            correlations_ := {[ 7 := "matmul_0"%string ]};
            subscriber_ := 0 |}) =
    Thrown EnforceNotMet
      {| enabled_ := true; start_ns_ := 42; end_ns_ := 77;
         kernel_records_ := [matmul_record];
         correlations_ := {[ 7 := "matmul_0"%string ]};
         subscriber_ := 1 |} /\
  fst (Impl.GenProfile
         {| enabled_ := true; start_ns_ := 42; end_ns_ := 77;
            kernel_records_ := [matmul_record];
            correlations_ := {[ 7 := "matmul_0"%string ]};
            subscriber_ := 1 |}) =
    Done {| events := [matmul_event]; profile_start_ns := 42;
            profile_end_ns := 77 |}
         {| enabled_ := true; start_ns_ := 42; end_ns_ := 77;
            kernel_records_ := [matmul_record];
            correlations_ := {[ 7 := "matmul_0"%string ]};
            subscriber_ := 1 |}.
Proof.
  destruct (session_report truth_value all_success
           (flushing (status all_success))
           {| enabled_ := false; start_ns_ := 0; end_ns_ := 0;
              kernel_records_ := [];
              correlations_ := {[ 7 := "matmul_0"%string ]};
              subscriber_ := 0 |}) as (_ & _ & H).
  - reflexivity.
  - repeat constructor.
  - repeat constructor.
  - repeat constructor.
  - destruct (H eq_refl) as (H1 & _ & H3). split; [exact H1|exact H3].
Defined.

(** ** Annotations and records in any order *)

(** X9. The join does not depend on the order of arrival: writing an
    annotation and appending a record commute, and a record that was
    appended before the annotation of its correlation id was written is
    reported under that annotation, as the last event. *)
Theorem annotation_after_record (this : DeviceTracerImpl)
    (id : Z) (anno : string) (s e d st c : Z) :
  (Impl.AddKernelRecords s e d st c ;; Impl.AddAnnotation id anno) this =
  (Impl.AddAnnotation id anno ;; Impl.AddKernelRecords s e d st c) this /\
  (u32 c = u32 id ->
   exists (earlier : list Event) (this' : DeviceTracerImpl) (log : list Effect),
     (Impl.AddKernelRecords s e d st c ;; Impl.AddAnnotation id anno ;;
      Impl.GenProfile) this =
     (Done {| events := earlier ++
                [{| name := anno; start_ns := u64 s; end_ns := u64 e;
                    device_id := u32 d; stream_id := u32 st |}];
              profile_start_ns := start_ns_ this;
              profile_end_ns := end_ns_ this |} this', log) /\
     length earlier <= length (kernel_records_ this))%nat.
Proof.
  split.
  - unfold bind. rewrite !AddKernelRecords_run.
    rewrite (AddAnnotation_run id anno this).
    rewrite (AddAnnotation_run id anno
               (with_kernel_records _ this)).
    rewrite AddKernelRecords_run. reflexivity.
  - intros Hc.
    rewrite (bind_Done _ _ _ _ _ _ (AddKernelRecords_run s e d st c this)).
    rewrite (bind_Done _ _ _ _ _ _ (AddAnnotation_run id anno _)).
    rewrite GenProfile_run. unfold report.
    cbn [fst snd app with_kernel_records correlations_ kernel_records_
         start_ns_ end_ns_].
    rewrite join_events_app.
    eexists (join_events _ (kernel_records_ this)), _, _. split.
    + f_equal. f_equal. f_equal. f_equal.
      unfold join_events, event_of. cbn. rewrite Hc, lookup_insert_eq.
      reflexivity.
    + rewrite join_events_length. apply List.filter_length_le.
Qed.

Lemma annotation_after_record_witness :
  exists (earlier : list Event) (this' : DeviceTracerImpl) (log : list Effect),
    (Impl.AddKernelRecords 1000 1500 0 1 7 ;;
     Impl.AddAnnotation 7 "matmul_0" ;;
     Impl.GenProfile) orphan_state =
    (Done {| events := earlier ++
               [{| name := "matmul_0"; start_ns := u64 1000;
                   end_ns := u64 1500; device_id := u32 0;
                   stream_id := u32 1 |}];
             profile_start_ns := start_ns_ orphan_state;
             profile_end_ns := end_ns_ orphan_state |} this', log) /\
    (length earlier <= length (kernel_records_ orphan_state))%nat.
Proof.
  apply (annotation_after_record orphan_state 7 "matmul_0" 1000 1500 0 1 7).
  reflexivity.
Defined.

(** ** The other notifications *)

Lemma ApiCallback_launch_run (o : option string) (cbInfo : CUpti_CallbackData)
    (this : DeviceTracerImpl) :
  callbackSite cbInfo = CUPTI_API_ENTER ->
  Impl.ApiCallback o CUPTI_CB_DOMAIN_DRIVER_API
    CUPTI_DRIVER_TRACE_CBID_cuLaunchKernel cbInfo this =
  match o, symbolName cbInfo with
  | Some a, _ | None, Some a =>
      Impl.AddAnnotation (u32 (cb_correlationId cbInfo)) a this
  | None, None => (Aborted NullString, [])
  end.
Proof.
  intros Hs. unfold Impl.ApiCallback. rewrite Hs.
  destruct o, (symbolName cbInfo); reflexivity.
Qed.

(** X13. The callback acts on the entry of a kernel launch only: for any
    other domain or callback id, and at the exit of a launch, it returns
    with the tracer unchanged, whatever the annotation and the symbol name
    are.  At the exit of a launch it has no effect at all; for another
    domain or callback id its one effect is the message of [VLOG(1)]. *)
Theorem ApiCallback_other_notifications (cur_annotation : option string)
    (domain : CUpti_CallbackDomain) (cbid : CUpti_CallbackId)
    (cbInfo : CUpti_CallbackData) (this : DeviceTracerImpl) :
  ~ (domain = CUPTI_CB_DOMAIN_DRIVER_API /\
     cbid = CUPTI_DRIVER_TRACE_CBID_cuLaunchKernel /\
     callbackSite cbInfo = CUPTI_API_ENTER) ->
  exists log : list Effect,
    Impl.ApiCallback cur_annotation domain cbid cbInfo this =
      (Done tt this, log) /\
    (domain = CUPTI_CB_DOMAIN_DRIVER_API /\
     cbid = CUPTI_DRIVER_TRACE_CBID_cuLaunchKernel -> log = []) /\
    (~ (domain = CUPTI_CB_DOMAIN_DRIVER_API /\
        cbid = CUPTI_DRIVER_TRACE_CBID_cuLaunchKernel) -> log = [Vlog1]).
Proof.
  intros Hn. unfold Impl.ApiCallback.
  destruct domain, cbid;
    try (eexists; split; [reflexivity|];
         split; [intros [H1 H2]; discriminate|reflexivity]).
  destruct (callbackSite cbInfo); [tauto|].
  eexists; split; [reflexivity|]. split; [reflexivity|]. tauto.
Qed.

(** The exit of a launch, and a notification of another domain, both
    without annotation and with a null symbol name. *)
Lemma ApiCallback_other_notifications_witness :
  Impl.ApiCallback None CUPTI_CB_DOMAIN_DRIVER_API
    CUPTI_DRIVER_TRACE_CBID_cuLaunchKernel
    {| callbackSite := CUPTI_API_EXIT; symbolName := None;
       cb_correlationId := 7 |} matmul_state = (Done tt matmul_state, []) /\
  Impl.ApiCallback None (CUPTI_CB_DOMAIN_OTHER 2)
    CUPTI_DRIVER_TRACE_CBID_cuLaunchKernel
    {| callbackSite := CUPTI_API_ENTER; symbolName := None;
       cb_correlationId := 7 |} matmul_state =
    (Done tt matmul_state, [Vlog1]).
Proof.
  split.
  - destruct (ApiCallback_other_notifications None CUPTI_CB_DOMAIN_DRIVER_API
           CUPTI_DRIVER_TRACE_CBID_cuLaunchKernel
           {| callbackSite := CUPTI_API_EXIT; symbolName := None;
              cb_correlationId := 7 |} matmul_state)
      as (log & Hrun & Hexit & _).
    + intros (_ & _ & H). discriminate H.
    + rewrite Hrun, Hexit; [reflexivity|]. split; reflexivity.
  - destruct (ApiCallback_other_notifications None (CUPTI_CB_DOMAIN_OTHER 2)
           CUPTI_DRIVER_TRACE_CBID_cuLaunchKernel
           {| callbackSite := CUPTI_API_ENTER; symbolName := None;
              cb_correlationId := 7 |} matmul_state)
      as (log & Hrun & _ & Hother).
    + intros (H & _). discriminate H.
    + rewrite Hrun, Hother; [reflexivity|]. intros (H & _). discriminate H.
Defined.

(** X14. The annotation of a thread is one slot, not a stack: a second
    [SetCurAnnotation] replaces the first, and [ClearCurAnnotation] after
    the two leaves no annotation, so that the next launch of the thread is
    entered under the symbol name and not under the outer annotation.
    Setting a null annotation is clearing. *)
Theorem annotation_slot_not_nested (cur_annotation : gmap nat string)
    (thread : nat) (outer inner sym : string) (this : DeviceTracerImpl)
    (cbInfo : CUpti_CallbackData) :
  callbackSite cbInfo = CUPTI_API_ENTER ->
  symbolName cbInfo = Some sym ->
  let launch (slots : gmap nat string) :=
    Impl.ApiCallback (slots !! thread) CUPTI_CB_DOMAIN_DRIVER_API
      CUPTI_DRIVER_TRACE_CBID_cuLaunchKernel cbInfo this in
  let nested :=
    SetCurAnnotation thread (Some inner)
      (SetCurAnnotation thread (Some outer) cur_annotation) in
  entry_written (u32 (cb_correlationId cbInfo)) inner this (launch nested) /\
  entry_written (u32 (cb_correlationId cbInfo)) sym this
    (launch (ClearCurAnnotation thread nested)) /\
  SetCurAnnotation thread None cur_annotation =
    ClearCurAnnotation thread cur_annotation.
Proof.
  intros Hsite Hsym launch nested. subst launch nested. cbv beta.
  unfold SetCurAnnotation, ClearCurAnnotation.
  rewrite lookup_delete_eq, lookup_insert_eq.
  rewrite !(ApiCallback_launch_run _ _ _ Hsite), Hsym.
  rewrite <- (u32_idemp (cb_correlationId cbInfo)) at 1 3.
  repeat split; apply AddAnnotation_run.
Qed.

Lemma annotation_slot_not_nested_witness :
  entry_written 7 "_Z6matmulPf" (Impl.new 0 0 0)
    (Impl.ApiCallback
       (ClearCurAnnotation 0
          (SetCurAnnotation 0 (Some "matmul_0"%string)
             (SetCurAnnotation 0 (Some "layer_1"%string) ∅)) !! 0%nat)
       CUPTI_CB_DOMAIN_DRIVER_API CUPTI_DRIVER_TRACE_CBID_cuLaunchKernel
       matmul_launch (Impl.new 0 0 0)).
Proof.
  apply (annotation_slot_not_nested ∅ 0%nat "layer_1" "matmul_0"
           "_Z6matmulPf" (Impl.new 0 0 0) matmul_launch eq_refl eq_refl).
Defined.

(** ** The width of the key *)

(** X15. The table is keyed by the low 32 bits of the id that
    [AddAnnotation] receives as a 64-bit integer: two ids that agree on
    these bits write the same entry, so the later call replaces the text of
    the earlier one, and a record is reported under the annotation of any
    id that agrees with its correlation id on the low 32 bits. *)
Theorem AddAnnotation_key_low_bits (this : DeviceTracerImpl) (id id' : Z)
    (anno anno' : string) :
  u32 id = u32 id' ->
  Impl.AddAnnotation id anno this = Impl.AddAnnotation id' anno this /\
  exists this' : DeviceTracerImpl,
    (Impl.AddAnnotation id anno ;; Impl.AddAnnotation id' anno') this =
      (Done tt this', []) /\
    correlations_ this' = <[u32 id := anno']> (correlations_ this) /\
    correlations_ this' !! u32 id' = Some anno'.
Proof.
  intros Hid.
  pose proof (AddAnnotation_run id anno this) as H1.
  pose proof (AddAnnotation_run id' anno this) as H2.
  unfold entry_written in *. rewrite <- Hid in H2. split; [congruence|].
  eexists. split.
  - rewrite (bind_Done _ _ _ _ _ _ H1).
    pose proof (AddAnnotation_run id' anno'
      {| enabled_ := enabled_ this; start_ns_ := start_ns_ this;
         end_ns_ := end_ns_ this; kernel_records_ := kernel_records_ this;
         correlations_ := <[u32 id:=anno]> (correlations_ this);
         subscriber_ := subscriber_ this |}) as H3.
    unfold entry_written in H3. rewrite H3. reflexivity.
  - cbn. rewrite <- Hid, insert_insert_eq. split; [reflexivity|].
    apply lookup_insert_eq.
Qed.

Lemma AddAnnotation_key_low_bits_witness :
  Impl.AddAnnotation 7 "a" (Impl.new 0 0 0) =
  Impl.AddAnnotation (2 ^ 32 + 7) "a" (Impl.new 0 0 0).
Proof.
  apply (AddAnnotation_key_low_bits (Impl.new 0 0 0) 7 (2 ^ 32 + 7) "a" "b").
  reflexivity.
Defined.

(** ** The summary written by [GenProfile] *)

Lemma et_append_keys (k : string) (d : Z) (et : EventTimes) :
  map fst (et_append k d et) = map fst et.
Proof.
  induction et as [|[k0 v0] et IH]; [reflexivity|]. cbn.
  destruct (String.eqb k k0); cbn; [reflexivity|]. rewrite IH. reflexivity.
Qed.

Lemma et_find_None (k : string) (et : EventTimes) :
  et_find k et = None -> ~ In k (map fst et).
Proof.
  induction et as [|[k0 v0] et IH]; cbn; [tauto|].
  destruct (String.eqb_spec k k0) as [->|Hne]; [discriminate|].
  intros Hn [Heq|Hin]; [congruence|exact (IH Hn Hin)].
Qed.

Lemma et_find_In (k : string) (v : list Z) (et : EventTimes) :
  et_find k et = Some v -> In (k, v) et.
Proof.
  induction et as [|[k0 v0] et IH]; cbn; [discriminate|].
  destruct (String.eqb_spec k k0) as [->|Hne].
  - intros H. inversion H. left. reflexivity.
  - intros H. right. exact (IH H).
Qed.

Lemma et_insert_keys (k : string) (v : list Z) (et : EventTimes) (x : string) :
  In x (map fst (et_insert k v et)) <-> x = k \/ In x (map fst et).
Proof.
  induction et as [|[k0 v0] et IH]; cbn; [intuition|].
  destruct (String.ltb k k0); cbn; [intuition|]. rewrite IH. intuition.
Qed.

Lemma et_insert_NoDup (k : string) (v : list Z) (et : EventTimes) :
  ~ In k (map fst et) -> List.NoDup (map fst et) ->
  List.NoDup (map fst (et_insert k v et)).
Proof.
  induction et as [|[k0 v0] et IH]; cbn; intros Hk Hnd.
  - constructor; [tauto|constructor].
  - destruct (String.ltb k k0); cbn.
    + constructor; [exact Hk|exact Hnd].
    + inversion Hnd as [|? ? Hk0 Hnd']; subst.
      constructor; [|apply IH; tauto].
      rewrite et_insert_keys. intros [Heq|Hin]; [|contradiction].
      apply Hk. left. exact Heq.
Qed.

Lemma et_push_NoDup (k : string) (d : Z) (et : EventTimes) :
  List.NoDup (map fst et) -> List.NoDup (map fst (et_push k d et)).
Proof.
  intros Hnd. unfold et_push. destruct (et_find k et) eqn:E.
  - rewrite et_append_keys. exact Hnd.
  - apply et_insert_NoDup; [apply et_find_None, E|exact Hnd].
Qed.

Lemma join_times_NoDup (correlations : gmap Z string) (rs : list KernelRecord) :
  forall et : EventTimes,
    List.NoDup (map fst et) ->
    List.NoDup (map fst (join_times correlations rs et)).
Proof.
  induction rs as [|r rs IH]; intros et Het; [exact Het|].
  unfold join_times in *. cbn [fold_left]. apply IH.
  destruct (correlations !! kr_correlation_id r); [|exact Het].
  apply et_push_NoDup, Het.
Qed.

Lemma et_NoDup_find (k : string) (v : list Z) (et : EventTimes) :
  List.NoDup (map fst et) -> In (k, v) et -> et_find k et = Some v.
Proof.
  induction et as [|[k0 v0] et IH]; cbn; [tauto|].
  intros Hnd Hin. inversion Hnd as [|? ? Hk0 Hnd']; subst.
  destruct Hin as [Heq|Hin].
  - inversion Heq. subst. rewrite String.eqb_refl. reflexivity.
  - destruct (String.eqb_spec k k0) as [->|Hne]; [|exact (IH Hnd' Hin)].
    exfalso. apply Hk0. change k0 with (fst (k0, v)).
    apply in_map, Hin.
Qed.

Lemma join_times_count (correlations : gmap Z string) (rs : list KernelRecord)
    (k : string) :
  forall et : EventTimes,
    length (et_durations k (join_times correlations rs et)) =
    (length (et_durations k et) +
     length (named k (join_events correlations rs)))%nat.
Proof.
  induction rs as [|r rs IH]; intros et;
    [cbn; rewrite Nat.add_0_r; reflexivity|].
  unfold join_times, join_events, event_of, named in *.
  cbn [fold_left omap list_omap].
  destruct (correlations !! kr_correlation_id r) as [nm|]; [|apply IH].
  rewrite IH, et_durations_push. cbn [List.filter name].
  destruct (String.eqb k nm); [|reflexivity].
  rewrite length_app. cbn. lia.
Qed.

Lemma et_push_nonempty (k : string) (d : Z) (et : EventTimes) :
  Forall (fun kv => snd kv <> []) et ->
  Forall (fun kv => snd kv <> []) (et_push k d et).
Proof.
  intros Het. unfold et_push. destruct (et_find k et).
  - induction Het as [|[k0 v0] et Hv Het IH]; cbn; [constructor|].
    destruct (String.eqb k k0); constructor; auto; cbn.
    intros Happ. apply app_eq_nil in Happ. destruct Happ. discriminate.
  - induction Het as [|[k0 v0] et Hv Het IH]; cbn.
    + constructor; [discriminate|constructor].
    + destruct (String.ltb k k0); repeat (constructor; auto); cbn;
        discriminate.
Qed.

Lemma join_times_nonempty (correlations : gmap Z string)
    (rs : list KernelRecord) :
  forall et : EventTimes,
    Forall (fun kv => snd kv <> []) et ->
    Forall (fun kv => snd kv <> []) (join_times correlations rs et).
Proof.
  induction rs as [|r rs IH]; intros et Het; [exact Het|].
  unfold join_times in *. cbn [fold_left]. apply IH.
  destruct (correlations !! kr_correlation_id r); [|exact Het].
  apply et_push_nonempty, Het.
Qed.

Lemma named_nonempty (e : Event) (l : list Event) :
  In e l -> (1 <= length (named (name e) l))%nat.
Proof.
  unfold named. induction l as [|x l IH]; intros He; [destruct He|].
  cbn [List.filter]. destruct He as [->|He].
  - rewrite String.eqb_refl. cbn [length]. lia.
  - destruct (String.eqb (name e) (name x));
      [cbn [length]; lia|exact (IH He)].
Qed.

Lemma summary_lines (correlations : gmap Z string) (rs : list KernelRecord)
    (et : EventTimes) :
  omap summary_of (join_log correlations rs ++ summary_log et) =
  map summary_line et.
Proof.
  rewrite omap_app.
  assert (H1 : omap summary_of (join_log correlations rs) = []).
  { induction rs as [|r rs IH]; [reflexivity|].
    unfold join_log in *. cbn [flat_map]. rewrite omap_app, IH.
    destruct (resolvable correlations r); reflexivity. }
  rewrite H1. cbn [app].
  induction et as [|kv et IH]; [reflexivity|].
  change (omap summary_of (summary_log (kv :: et)))
    with (summary_line kv :: omap summary_of (summary_log et)).
  rewrite IH. reflexivity.
Qed.

Lemma summary_lines_sorted (et : EventTimes) :
  Sorted key_lt et -> Sorted line_lt (map summary_line et).
Proof.
  induction 1 as [|kv et Hs IH Hhd]; cbn; constructor; [exact IH|].
  destruct Hhd; cbn; constructor. assumption.
Qed.

(** X11. The summary that [GenProfile] writes has one line for each name
    that occurs among the events and no other line; the lines come in the
    increasing order of the names, and the count of a line is the number
    of events of its name. *)
Theorem GenProfile_summary_counts (this : DeviceTracerImpl) :
  exists (profile : Profile) (log : list Effect),
    Impl.GenProfile this = (Done profile this, log) /\
    Sorted line_lt (omap summary_of log) /\
    List.NoDup (map line_name (omap summary_of log)) /\
    (forall k total count,
       In (k, total, count) (omap summary_of log) ->
       (1 <= count)%nat /\ count = length (named k (events profile))) /\
    (forall e, In e (events profile) ->
       exists total count,
         In (name e, total, count) (omap summary_of log)).
Proof.
  eexists _, _. split; [apply GenProfile_run|].
  rewrite summary_lines. unfold report. cbn [events].
  set (corr := correlations_ this). set (rs := kernel_records_ this).
  set (et := join_times corr rs []).
  assert (Hnd : List.NoDup (map fst et))
    by (apply join_times_NoDup; constructor).
  assert (Hcount : forall k v, In (k, v) et ->
            length v = length (named k (join_events corr rs))).
  { intros k v Hin. pose proof (join_times_count corr rs k []) as Hc.
    fold et in Hc. unfold et_durations in Hc.
    rewrite (et_NoDup_find k v et Hnd Hin) in Hc. exact Hc. }
  split; [apply summary_lines_sorted, join_times_sorted; constructor|].
  split; [|split].
  - rewrite map_map. exact Hnd.
  - intros k total count Hin. apply in_map_iff in Hin.
    destruct Hin as [[k' v] [Heq Hin]]. inversion Heq; subst.
    cbn [fst snd]. split; [|apply Hcount, Hin].
    assert (Hne : Forall (fun kv => snd kv <> []) et)
      by (apply join_times_nonempty; constructor).
    rewrite List.Forall_forall in Hne. specialize (Hne _ Hin). cbn in Hne.
    destruct v; [congruence|cbn; lia].
  - intros e He.
    pose proof (named_nonempty e _ He) as Hn.
    pose proof (join_times_count corr rs (name e) []) as Hc. fold et in Hc.
    unfold et_durations in Hc.
    destruct (et_find (name e) et) as [v|] eqn:E; [|cbn in Hc; lia].
    exists (accumulate_int v), (length v).
    apply in_map_iff. exists (name e, v). split; [reflexivity|].
    apply et_find_In, E.
Qed.

(** ** The totals of the summary *)

Lemma to_int_congr (a b : Z) :
  a mod 2 ^ 32 = b mod 2 ^ 32 -> to_int a = to_int b.
Proof.
  intros H. unfold to_int.
  rewrite <- (Z.add_mod_idemp_l a), <- (Z.add_mod_idemp_l b), H by lia.
  reflexivity.
Qed.

Lemma to_int_mod (z : Z) : to_int z mod 2 ^ 32 = z mod 2 ^ 32.
Proof.
  unfold to_int. rewrite Zminus_mod_idemp_l. f_equal. lia.
Qed.

Lemma to_int_range (z : Z) : - 2 ^ 31 <= to_int z < 2 ^ 31.
Proof.
  unfold to_int.
  pose proof (Z.mod_pos_bound (z + 2 ^ 31) (2 ^ 32) eq_refl) as H.
  set (m := (z + 2 ^ 31) mod 2 ^ 32) in *. clearbody m.
  change (2 ^ 32) with (2 ^ 31 + 2 ^ 31) in H. lia.
Qed.

Lemma to_int_small (z : Z) : - 2 ^ 31 <= z < 2 ^ 31 -> to_int z = z.
Proof. intros H. unfold to_int. rewrite Z.mod_small; lia. Qed.

Lemma accumulate_step (s d : Z) :
  to_int (u64 (u64 (to_int s) + d)) = to_int (s + d).
Proof.
  apply to_int_congr.
  change (u64 (u64 (to_int s) + d) mod 2 ^ 32)
    with (u32 (u64 (u64 (to_int s) + d))).
  rewrite u32_u64. unfold u32.
  rewrite <- Z.add_mod_idemp_l by lia.
  change (u64 (to_int s) mod 2 ^ 32) with (u32 (u64 (to_int s))).
  rewrite u32_u64. unfold u32. rewrite to_int_mod.
  rewrite Z.add_mod_idemp_l by lia. reflexivity.
Qed.

Lemma accumulate_int_sum (v : list Z) :
  accumulate_int v = to_int (sum_durations v).
Proof.
  unfold accumulate_int.
  assert (H : forall s, fold_left
              (fun acc d => to_int (u64 (u64 acc + d))) v (to_int s) =
            to_int (s + sum_durations v)).
  { induction v as [|d v IH]; intros s;
      cbn [fold_left sum_durations fold_right].
    - rewrite Z.add_0_r. reflexivity.
    - rewrite accumulate_step, IH, Z.add_assoc. reflexivity. }
  exact (H 0).
Qed.

Lemma sum_durations_nonneg (v : list Z) :
  Forall (fun d => 0 <= d) v -> 0 <= sum_durations v.
Proof. unfold sum_durations. induction 1; cbn [fold_right]; lia. Qed.

(** X12. The total of a summary line is the sum of the durations of the
    events of its name, kept in an [int]: it is that sum read as a signed
    32-bit integer, hence the sum itself as long as the sum is below 2^31
    nanoseconds, and another number from there on (for records whose
    timestamps are within their type and in order). *)
Theorem GenProfile_summary_totals (this : DeviceTracerImpl) :
  Forall (fun r => kr_start_ns r <= kr_end_ns r) (kernel_records_ this) ->
  Forall (fun r => 0 <= kr_start_ns r /\ kr_end_ns r < 2 ^ 64)
    (kernel_records_ this) ->
  exists (profile : Profile) (log : list Effect),
    Impl.GenProfile this = (Done profile this, log) /\
    forall k total count,
      In (k, total, count) (omap summary_of log) ->
      let sum := sum_durations (map duration (named k (events profile))) in
      total = to_int sum /\
      (sum < 2 ^ 31 -> total = sum) /\
      (2 ^ 31 <= sum -> total <> sum).
Proof.
  intros Hord Hrange.
  eexists _, _. split; [apply GenProfile_run|].
  rewrite summary_lines. unfold report. cbn [events].
  intros k total count Hin. apply in_map_iff in Hin.
  destruct Hin as [[k' v] [Heq Hin]]. unfold summary_line in Heq.
  cbn [fst snd] in Heq. injection Heq as Hk Ht Hc. subst k total count.
  pose proof (join_times_durations (correlations_ this) _ k' Hord Hrange [])
    as Hd.
  unfold et_durations at 1 in Hd.
  rewrite (et_NoDup_find k' v _
             (join_times_NoDup _ _ [] (List.NoDup_nil _)) Hin) in Hd.
  cbn in Hd. subst v. cbv zeta.
  assert (Hpos : 0 <= sum_durations
            (map duration (named k' (join_events (correlations_ this)
                                       (kernel_records_ this))))).
  { apply sum_durations_nonneg. apply Forall_map.
    pose proof (join_events_ordered (correlations_ this) _ Hord) as Hev.
    unfold named. rewrite List.Forall_forall in *.
    intros e He. apply List.filter_In in He. apply Hev, He. }
  rewrite accumulate_int_sum. split; [reflexivity|]. split.
  - intros Hlt. apply to_int_small. lia.
  - intros Hge Heq'. pose proof (to_int_range (sum_durations
      (map duration (named k' (join_events (correlations_ this)
                                 (kernel_records_ this)))))). lia.
Qed.

Lemma GenProfile_summary_totals_witness :
  exists (profile : Profile) (log : list Effect),
    Impl.GenProfile matmul_state = (Done profile matmul_state, log) /\
    forall k total count,
      In (k, total, count) (omap summary_of log) ->
      let sum := sum_durations (map duration (named k (events profile))) in
      total = to_int sum /\
      (sum < 2 ^ 31 -> total = sum) /\
      (2 ^ 31 <= sum -> total <> sum).
Proof.
  apply (GenProfile_summary_totals matmul_state);
    repeat constructor; cbn; lia.
Defined.

Lemma GenProfile_summary_counts_witness :
  exists (profile : Profile) (log : list Effect),
    Impl.GenProfile matmul_state = (Done profile matmul_state, log) /\
    omap summary_of log = [("matmul_0"%string, 500, 1%nat)] /\
    (1 <= 1)%nat /\ 1%nat = length (named "matmul_0" (events profile)).
Proof.
  destruct (GenProfile_summary_counts matmul_state)
    as (profile & log & Hrun & _ & _ & Hc & _).
  exists profile, log. split; [exact Hrun|].
  assert (Hlog : omap summary_of log = [("matmul_0"%string, 500, 1%nat)]).
  { rewrite GenProfile_run in Hrun. inversion Hrun. reflexivity. }
  split; [exact Hlog|]. apply (Hc "matmul_0"%string 500).
  rewrite Hlog. left. reflexivity.
Defined.

(** ** From the launch to the report *)

(** X10. A launch entered under an annotation and completed later is
    reported under that annotation: after the callback for the entry into
    the launch, run on a thread whose annotation is set, and the completion
    of a buffer that holds one kernel record with the correlation id of
    the launch, the last event of the report has the annotation as its name
    and the timestamps, device and stream of the record. *)
Theorem launch_then_completion (this : DeviceTracerImpl)
    (slots : gmap nat string) (thread : nat) (anno : string)
    (cbInfo : CUpti_CallbackData) (env : CuptiEnv) (b : ActivityBuffer)
    (r : CUpti_ActivityKernel3) :
  callbackSite cbInfo = CUPTI_API_ENTER ->
  0 < validSize b ->
  records b = [r] ->
  read_error b = None ->
  status env cuptiActivityGetNumDroppedRecords = CUPTI_SUCCESS ->
  is_kernel_kind r = true ->
  u32 (correlationId r) = u32 (cb_correlationId cbInfo) ->
  exists (earlier : list Event) (this' : DeviceTracerImpl) (log : list Effect),
    (Impl.ApiCallback (SetCurAnnotation thread (Some anno) slots !! thread)
       CUPTI_CB_DOMAIN_DRIVER_API CUPTI_DRIVER_TRACE_CBID_cuLaunchKernel
       cbInfo ;;
     Impl.bufferCompleted env b ;;
     Impl.GenProfile) this =
    (Done {| events := earlier ++
               [{| name := anno; start_ns := u64 (start r);
                   end_ns := u64 (end_ r); device_id := u32 (deviceId r);
                   stream_id := u32 (streamId r) |}];
             profile_start_ns := start_ns_ this;
             profile_end_ns := end_ns_ this |} this', log).
Proof.
  intros Hsite Hv Hrs Herr Hst Hk Hid.
  unfold SetCurAnnotation. rewrite lookup_insert_eq.
  pose proof (AddAnnotation_run (u32 (cb_correlationId cbInfo)) anno this)
    as Hanno.
  unfold entry_written in Hanno. rewrite u32_idemp in Hanno.
  rewrite <- (ApiCallback_launch_run (Some anno) cbInfo this Hsite) in Hanno.
  rewrite (bind_Done _ _ _ _ _ _ Hanno).
  match goal with
  | |- context [bind (Impl.bufferCompleted env b) _ ?s] =>
      destruct (bufferCompleted_cases env b s) as [[_ [l Hb]]|[Hn _]];
        [|exfalso; apply Hn; intros _; split; assumption]
  end.
  rewrite (bind_Done _ _ _ _ _ _ Hb).
  rewrite GenProfile_run. unfold report, buffer_records.
  destruct (Z.ltb_spec 0 (validSize b)); [|lia].
  rewrite Hrs. cbn [List.filter]. rewrite Hk.
  cbn [fst snd app map with_kernel_records correlations_ kernel_records_
       start_ns_ end_ns_].
  rewrite join_events_app.
  eexists (join_events _ (kernel_records_ this)), _, _.
  f_equal. f_equal. f_equal. f_equal.
  unfold join_events, event_of, kernel_record_of. cbn.
  rewrite Hid, lookup_insert_eq. reflexivity.
Qed.

Lemma launch_then_completion_witness :
  exists (earlier : list Event) (this' : DeviceTracerImpl) (log : list Effect),
    (Impl.ApiCallback
       (SetCurAnnotation 0 (Some "matmul_0"%string) ∅ !! 0%nat)
       CUPTI_CB_DOMAIN_DRIVER_API CUPTI_DRIVER_TRACE_CBID_cuLaunchKernel
       matmul_launch ;;
     Impl.bufferCompleted all_success matmul_buffer ;;
     Impl.GenProfile) (Impl.new 0 0 0) =
    (Done {| events := earlier ++
               [{| name := "matmul_0"; start_ns := u64 1000;
                   end_ns := u64 1500; device_id := u32 0;
                   stream_id := u32 1 |}];
             profile_start_ns := 0;
             profile_end_ns := 0 |} this', log).
Proof.
  apply (launch_then_completion (Impl.new 0 0 0) ∅ 0%nat "matmul_0"
           matmul_launch all_success matmul_buffer
           {| kind := CUPTI_ACTIVITY_KIND_KERNEL; start := 1000;
              end_ := 1500; deviceId := 0; streamId := 1;
              correlationId := 7 |});
    reflexivity.
Defined.
